(** * Automation job engine of SMM-automation (src/bot.py, src/app.py, src/config.py)

    Shallow embedding of the job scheduler, the growth calculator, the job
    lifecycle operations, job creation and the JSON persistence layer. *)

From Stdlib Require Import ZArith String List Bool Lia.
From Stdlib Require Import Floats.SpecFloat DecimalString DecimalZ.
Import ListNotations.
Open Scope Z_scope.

(** ** Python floats: IEEE-754 binary64 *)

Module PyFloat.

Definition prec : Z := 53.
Definition emax : Z := 1024.

Abbreviation float := spec_float.

Definition fmul (x y : float) : float := SFmul prec emax x y.
Definition fdiv (x y : float) : float := SFdiv prec emax x y.
Definition fadd (x y : float) : float := SFadd prec emax x y.
Definition fsub (x y : float) : float := SFsub prec emax x y.

(** [float(n)] for a Python int: round to nearest even; too large raises
    OverflowError ([None]). *)
Definition of_int (n : Z) : option float :=
  match binary_normalize prec emax n 0 false with
  | S754_infinity _ => None
  | f => Some f
  end.

(** [int(x)] for a Python float: truncation toward zero; infinities raise
    OverflowError and NaN raises ValueError ([None]). *)
Definition trunc (x : float) : option Z :=
  match x with
  | S754_zero _ => Some 0
  | S754_infinity _ | S754_nan => None
  | S754_finite s m e =>
      let a := if 0 <=? e then Z.pos m * 2 ^ e else Z.pos m / 2 ^ (- e) in
      Some (if s then - a else a)
  end.

(** The literal [1.1]: the binary64 number nearest to 11/10. *)
Definition lit_1_1 : float := S754_finite false 4953959590107546 (-52).

(** The int literal [100] converted to float. *)
Definition lit_100 : float := S754_finite false 25 2.

(** A float that is not negative (a zero of either sign, or a positive finite). *)
Definition nonneg (x : float) : bool :=
  match x with
  | S754_zero _ => true
  | S754_finite false _ _ => true
  | _ => false
  end.

End PyFloat.

Import PyFloat.

(** ** Growth calculator: [calculate_next_quantity] (src/bot.py) *)

(** An element of a job's [increase_range] as stored in the job dict: an int,
    a float, or a value that [float()] rejects. *)
Inductive rangeval :=
| RInt (n : Z)
| RFloat (f : float)
| RBad.

(** [float(v)]; [None] when it raises. *)
Definition py_float (v : rangeval) : option float :=
  match v with
  | RInt n => of_int n
  | RFloat f => Some f
  | RBad => None
  end.

Definition py_int_mul_float (n : Z) (f : float) : option Z :=
  match of_int n with
  | Some x => trunc (fmul x f)
  | None => None
  end.

(** The [except] branch: [int(current_quantity * 1.1)]; [None] when it raises
    (the exception then leaves [calculate_next_quantity]). *)
Definition fallback_quantity (current_quantity : Z) : option Z :=
  py_int_mul_float current_quantity lit_1_1.

(** [uniform] is [random.uniform]; it receives [float(min_increase)] and
    [float(max_increase)] and returns the drawn percentage.  The [try] block:
    unpacking the range (exactly two elements), [float()] of both bounds, the
    draw, [int(current_quantity * (increase_percent / 100))]; any exception
    there falls back to [fallback_quantity]. *)
Definition calculate_next_quantity (uniform : float -> float -> float)
    (current_quantity : Z) (increase_range : list rangeval) : option Z :=
  let attempt :=
    match increase_range with
    | [min_increase; max_increase] =>
        match py_float min_increase, py_float max_increase with
        | Some a, Some b =>
            let increase_percent := uniform a b in
            match py_int_mul_float current_quantity (fdiv increase_percent lit_100) with
            | Some increase_amount => Some (current_quantity + increase_amount)
            | None => None
            end
        | _, _ => None
        end
    | _ => None
    end in
  match attempt with
  | Some next_quantity => Some next_quantity
  | None => fallback_quantity current_quantity
  end.

(** CPython's [random.uniform(a, b) = a + (b - a) * random()] for a fixed
    outcome [r] of [random()]. *)
Definition py_uniform (r : float) (a b : float) : float :=
  fadd a (fmul (fsub b a) r).

Definition fl (n : Z) : float :=
  match of_int n with Some f => f | None => S754_nan end.

Example cnq_10 : calculate_next_quantity (py_uniform (fl 0)) 100 [RInt 10; RInt 10] = Some 110.
Proof. vm_compute. reflexivity. Qed.

Example cnq_bad : calculate_next_quantity (py_uniform (fl 0)) 10 [RBad; RInt 3] = Some 11.
Proof. vm_compute. reflexivity. Qed.

(** ** Sign lemmas for binary64 rounding *)

Module FloatSign.

(** A float that is neither a negative finite number nor minus infinity. *)
Definition not_neg (x : float) : Prop :=
  match x with
  | S754_finite true _ _ | S754_infinity true => False
  | _ => True
  end.

Lemma round_aux_sign (s : bool) (m e : Z) (l : location) :
  match binary_round_aux prec emax s m e l with
  | S754_zero _ | S754_nan => True
  | S754_finite s' _ _ | S754_infinity s' => s' = s
  end.
Proof.
  unfold binary_round_aux.
  destruct (shr_fexp prec emax m e l) as [mrs' e'].
  destruct (shr_fexp prec emax _ e' loc_Exact) as [mrs'' e''].
  destruct (shr_m mrs''); trivial.
  destruct (e'' <=? emax - prec); reflexivity.
Qed.

Lemma round_aux_false_not_neg (m e : Z) (l : location) :
  not_neg (binary_round_aux prec emax false m e l).
Proof.
  pose proof (round_aux_sign false m e l) as H.
  destruct (binary_round_aux prec emax false m e l) as [|[|]| |[|]]; simpl in *;
    congruence || trivial.
Qed.

Lemma of_int_not_neg (n : Z) (x : float) :
  0 <= n -> of_int n = Some x -> not_neg x.
Proof.
  intros Hn Hx. unfold of_int, binary_normalize in Hx.
  destruct n as [|p|p]; [| |lia].
  - inversion Hx; subst; exact I.
  - unfold binary_round in Hx.
    destruct (shl_align p 0 _) as [mz ez].
    pose proof (round_aux_false_not_neg (Z.pos mz) ez loc_Exact) as H.
    destruct (binary_round_aux prec emax false (Z.pos mz) ez loc_Exact);
      inversion Hx; subst; exact H.
Qed.

Lemma fmul_not_neg (x y : float) : not_neg x -> not_neg y -> not_neg (fmul x y).
Proof.
  intros Hx Hy. unfold fmul, SFmul.
  destruct x as [sx|[|]| |[|] mx ex]; destruct y as [sy|[|]| |[|] my ey];
    simpl in *; try contradiction; trivial;
    apply round_aux_false_not_neg.
Qed.

Lemma fdiv_100_not_neg (x : float) : not_neg x -> not_neg (fdiv x lit_100).
Proof.
  intros Hx. unfold fdiv, SFdiv, lit_100.
  destruct x as [sx|[|]| |[|] mx ex]; simpl in *; try contradiction; trivial.
  destruct (SFdiv_core_binary prec emax _ _ _ _) as [[mz ez] lz].
  apply round_aux_false_not_neg.
Qed.

Lemma trunc_not_neg (x : float) (k : Z) : not_neg x -> trunc x = Some k -> 0 <= k.
Proof.
  intros Hx Hk. destruct x as [s|s| |[|] m e]; simpl in Hx; unfold trunc in Hk;
    try discriminate; try contradiction; injection Hk as <-; [lia|].
  cbv zeta. destruct (0 <=? e) eqn:E; [|apply Z.leb_gt in E].
  - pose proof (Z.pow_nonneg 2 e ltac:(lia)) as H2.
    destruct (2 ^ e); [lia | apply Pos2Z.is_nonneg | lia].
  - pose proof (Z.pow_pos_nonneg 2 (- e) ltac:(lia) ltac:(lia)) as H2.
    apply Z.div_pos; lia.
Qed.

Lemma nonneg_not_neg (x : float) : nonneg x = true -> not_neg x.
Proof. destruct x as [s|s| |[|] m e]; simpl; trivial; discriminate. Qed.

Lemma py_int_mul_float_nonneg (n : Z) (f : float) (k : Z) :
  0 <= n -> not_neg f -> py_int_mul_float n f = Some k -> 0 <= k.
Proof.
  intros Hn Hf. unfold py_int_mul_float.
  destruct (of_int n) as [x|] eqn:Ex; [|discriminate].
  apply trunc_not_neg, fmul_not_neg; [eapply of_int_not_neg; eauto | exact Hf].
Qed.

End FloatSign.

(** ** C6: the growth calculator *)

(** C6 (counterexample).  With the range [29, 29] every draw is exactly
    [29.0], and [calculate_next_quantity(100, [29, 29])] returns 128, not
    [100 + floor(100 * 29 / 100) = 129], because [29.0 / 100 * 100] is
    [28.999999999999996] in binary64.  With [q = 2^53 + 3] and the range
    [100, 100] it returns more than [q + ceil(q * 100 / 100) = 2q], because
    [float(q)] rounds up to [2^53 + 4]. *)
Lemma calculate_next_quantity_counterexample :
  py_uniform (fl 0) (fl 29) (fl 29) = fl 29 /\
  calculate_next_quantity (py_uniform (fl 0)) 100 [RInt 29; RInt 29] = Some 128 /\
  100 + (100 * 29) / 100 = 129 /\
  py_uniform (fl 0) (fl 100) (fl 100) = fl 100 /\
  calculate_next_quantity (py_uniform (fl 0)) 9007199254740995 [RInt 100; RInt 100]
    = Some (9007199254740995 + 9007199254740996) /\
  9007199254740995 + 9007199254740996 > 9007199254740995 + 9007199254740995.
Proof. vm_compute. repeat split; reflexivity. Qed.

(** C6.  For a quantity [q >= 0]: when the range is a pair of numbers and the
    drawn percentage [p] is not negative, either [int(q * (p / 100))] in
    binary64 is a number [k >= 0] and the next quantity is [q + k >= q], or
    that product is not a finite number and the next quantity is the fallback
    [int(q * 1.1)]; on a malformed range (not two elements, or a bound that
    [float()] rejects) the next quantity is the fallback [int(q * 1.1)],
    whatever the draw. *)
Theorem calculate_next_quantity_amended (uniform : float -> float -> float)
    (q : Z) (increase_range : list rangeval) :
  0 <= q ->
  match increase_range with
  | [mn; mx] =>
      match py_float mn, py_float mx with
      | Some a, Some b =>
          nonneg (uniform a b) = true ->
          (exists k, py_int_mul_float q (fdiv (uniform a b) lit_100) = Some k /\ 0 <= k /\
                     calculate_next_quantity uniform q increase_range = Some (q + k))
          \/ (py_int_mul_float q (fdiv (uniform a b) lit_100) = None /\
              calculate_next_quantity uniform q increase_range = fallback_quantity q)
      | _, _ => calculate_next_quantity uniform q increase_range = fallback_quantity q
      end
  | _ => calculate_next_quantity uniform q increase_range = fallback_quantity q
  end.
Proof.
  intros Hq. unfold calculate_next_quantity.
  destruct increase_range as [|mn [|mx [|x rest]]]; try reflexivity.
  destruct (py_float mn) as [a|], (py_float mx) as [b|]; try reflexivity.
  intros Hp.
  destruct (py_int_mul_float q (fdiv (uniform a b) lit_100)) as [k|] eqn:Ek.
  - left. exists k. split; [reflexivity|]. split; [|reflexivity].
    eapply FloatSign.py_int_mul_float_nonneg; [exact Hq| |exact Ek].
    apply FloatSign.fdiv_100_not_neg, FloatSign.nonneg_not_neg, Hp.
  - right. split; reflexivity.
Qed.

Lemma calculate_next_quantity_amended_witness :
  0 <= 100 /\
  (nonneg (py_uniform (fl 0) (fl 29) (fl 29)) = true ->
   (exists k, py_int_mul_float 100 (fdiv (py_uniform (fl 0) (fl 29) (fl 29)) lit_100) = Some k /\ 0 <= k /\
              calculate_next_quantity (py_uniform (fl 0)) 100 [RInt 29; RInt 29] = Some (100 + k))
   \/ (py_int_mul_float 100 (fdiv (py_uniform (fl 0) (fl 29) (fl 29)) lit_100) = None /\
       calculate_next_quantity (py_uniform (fl 0)) 100 [RInt 29; RInt 29] = fallback_quantity 100)).
Proof.
  split; [lia|].
  exact (calculate_next_quantity_amended (py_uniform (fl 0)) 100 [RInt 29; RInt 29]
           ltac:(lia)).
Defined.

(** ** Jobs (the dicts of [background_jobs]) *)

(** The reply of the panel API as [place_order] returns it: a dict with an
    ["order"] field, or any other dict (usually [{"error": ...}]). *)
Inductive response :=
| Resp_order (order_id : Z)
| Resp_other (error : option string).

(** [order_info], appended to the job's [orders] by the scheduler. *)
Record order_info := mkOrderInfo {
  oi_timestamp : string;
  oi_quantity : Z;
  oi_response : response;
  oi_job_id : string;
  oi_service_id : string;
  oi_link : string
}.

(** A job dict.  An absent optional field and a field holding [None] read the
    same through [job.get]; both are [None] here.  [error_count] absent reads
    as 0. *)
Record job := mkJob {
  job_id : string;
  user_id : string;
  api_url : string;
  api_key : string;
  service_id : string;
  link : string;
  quantity : Z;
  increase_range : list rangeval;
  frequency : Z;
  next_run : Z;
  started_at : string;
  stopped : bool;
  paused : bool;
  bulk_group_id : option string;
  paused_at : option string;
  resumed_at : option string;
  stopped_at : option string;
  stopped_by : option string;
  stopped_reason : option string;
  error_count : Z;
  orders : list order_info
}.

Module JobUpdate.

Definition set_paused (b : bool) (paused_at' resumed_at' : option string)
    (next_run' : Z) (j : job) : job :=
  mkJob (job_id j) (user_id j) (api_url j) (api_key j) (service_id j) (link j)
    (quantity j) (increase_range j) (frequency j) next_run' (started_at j)
    (stopped j) b (bulk_group_id j) paused_at' resumed_at'
    (stopped_at j) (stopped_by j) (stopped_reason j) (error_count j) (orders j).

Definition set_stopped (stopped_at' stopped_by' stopped_reason' : option string)
    (j : job) : job :=
  mkJob (job_id j) (user_id j) (api_url j) (api_key j) (service_id j) (link j)
    (quantity j) (increase_range j) (frequency j) (next_run j) (started_at j)
    true (paused j) (bulk_group_id j) (paused_at j) (resumed_at j)
    stopped_at' stopped_by' stopped_reason' (error_count j) (orders j).

Definition set_schedule (quantity' next_run' : Z) (j : job) : job :=
  mkJob (job_id j) (user_id j) (api_url j) (api_key j) (service_id j) (link j)
    quantity' (increase_range j) (frequency j) next_run' (started_at j)
    (stopped j) (paused j) (bulk_group_id j) (paused_at j) (resumed_at j)
    (stopped_at j) (stopped_by j) (stopped_reason j) (error_count j) (orders j).

Definition append_order (oi : order_info) (j : job) : job :=
  mkJob (job_id j) (user_id j) (api_url j) (api_key j) (service_id j) (link j)
    (quantity j) (increase_range j) (frequency j) (next_run j) (started_at j)
    (stopped j) (paused j) (bulk_group_id j) (paused_at j) (resumed_at j)
    (stopped_at j) (stopped_by j) (stopped_reason j) (error_count j)
    (orders j ++ [oi]).

Definition set_error_count (n : Z) (j : job) : job :=
  mkJob (job_id j) (user_id j) (api_url j) (api_key j) (service_id j) (link j)
    (quantity j) (increase_range j) (frequency j) (next_run j) (started_at j)
    (stopped j) (paused j) (bulk_group_id j) (paused_at j) (resumed_at j)
    (stopped_at j) (stopped_by j) (stopped_reason j) n (orders j).

End JobUpdate.

Import JobUpdate.

(** ** Scheduler: one pass of the [while True] loop of [process_automation_jobs] *)

(** What one pass reads from the outside world: [int(time.time())], the
    timestamp string of [place_order], the panel's reply to the order of a
    job, and [random.uniform]. *)
Record tick_env := mkEnv {
  now : Z;
  stamp : string;
  panel : job -> response;
  uniform : float -> float -> float
}.

(** [datetime.fromtimestamp(t)] succeeds for years 1..9999 (taken in UTC);
    outside it raises. *)
Definition fromtimestamp_ok (t : Z) : bool :=
  (-62135596800 <=? t) && (t <=? 253402300799).

Definition mem_user (users : list string) (u : string) : bool :=
  existsb (String.eqb u) users.

(** The body of the [try] for one job that is not stopped: [inl j'] when it
    completes, [inr (j', msg)] when an exception escapes, [j'] carrying the
    mutations done before the exception. *)
Definition process_job_body (env : tick_env) (users : list string) (j : job)
    : job + (job * string) :=
  if (0 <? next_run j) && negb (fromtimestamp_ok (next_run j)) then
    inr (j, "year is out of range"%string)
  else if next_run j <=? now env then
    if negb (mem_user users (user_id j)) then inl j
    else
      let new_order := panel env j in
      let info := mkOrderInfo (stamp env) (quantity j) new_order
                    (job_id j) (service_id j) (link j) in
      let j1 := append_order info j in
      match calculate_next_quantity (uniform env) (quantity j) (increase_range j) with
      | None => inr (j1, "cannot convert float to integer"%string)
      | Some next_quantity =>
          let j2 := set_schedule next_quantity (now env + frequency j * 60) j1 in
          if fromtimestamp_ok (next_run j2) then inl j2
          else inr (j2, "year is out of range"%string)
      end
  else inl j.

(** The [except] branch: count the error; above 5 errors, stop the job. *)
Definition on_job_error (j : job) (msg : string) : job :=
  let j1 := set_error_count (error_count j + 1) j in
  if 5 <? error_count j1 then
    set_stopped (stopped_at j1) (stopped_by j1)
      (Some ("Too many errors: " ++ msg)%string) j1
  else j1.

Definition process_job (env : tick_env) (users : list string) (j : job) : job :=
  if stopped j then j
  else
    match process_job_body env users j with
    | inl j' => j'
    | inr (j', msg) => on_job_error j' msg
    end.

(** [background_jobs[:] = updated_jobs]: every job, in order, processed. *)
Definition tick (env : tick_env) (users : list string) (jobs : list job) : list job :=
  map (process_job env users) jobs.

Fixpoint run_ticks (envs : list tick_env) (users : list string) (jobs : list job)
    : list job :=
  match envs with
  | [] => jobs
  | env :: envs' => run_ticks envs' users (tick env users jobs)
  end.

(** ** Job lifecycle (src/app.py, src/bot.py) *)

Module Lifecycle.

(** [ADMIN_USERNAME] (src/config.py). *)
Definition ADMIN_USERNAME : string := "matrix".

(** [for job in background_jobs: if p(job): mutate; return True]; [False]
    when no job matches. *)
Fixpoint update_first (p : job -> bool) (f : job -> job) (jobs : list job)
    : bool * list job :=
  match jobs with
  | [] => (false, [])
  | j :: rest =>
      if p j then (true, f j :: rest)
      else let '(found, rest') := update_first p f rest in (found, j :: rest')
  end.

Definition is_job (job_id' user_id' : string) (j : job) : bool :=
  String.eqb (job_id j) job_id' && String.eqb (user_id j) user_id'.

(** [pause_job(job_id, user_id)]; [ts] is [datetime.now()] formatted. *)
Definition pause_job (ts : string) (job_id' user_id' : string) (jobs : list job)
    : bool * list job :=
  update_first (is_job job_id' user_id')
    (fun j => set_paused true (Some ts) (resumed_at j) (next_run j) j) jobs.

(** [resume_job(job_id, user_id)]; [now] is [int(time.time())]. *)
Definition resume_job (ts : string) (now' : Z) (job_id' user_id' : string)
    (jobs : list job) : bool * list job :=
  update_first (is_job job_id' user_id')
    (fun j => set_paused false (paused_at j) (Some ts) now' j) jobs.

(** Python truthiness of [stopped_by]. *)
Definition truthy (s : option string) : bool :=
  match s with Some v => negb (String.eqb v "") | None => false end.

(** [stop_job(job_id, stopped_by)] (src/bot.py). *)
Definition stop_job (ts : string) (job_id' : string) (stopped_by' : option string)
    (jobs : list job) : bool * list job :=
  update_first (fun j => String.eqb (job_id j) job_id')
    (fun j => set_stopped (Some ts)
                (if truthy stopped_by' then stopped_by' else stopped_by j)
                (stopped_reason j) j) jobs.

(** [stop_job_route(job_id)] (src/app.py): the first job with this id owned
    by the session user (or any job for the admin) is stopped through
    [stop_job]; the boolean is [job_found] (flash "Job stopped
    successfully" versus "Job not found or not authorized"). *)
Definition stop_job_route (ts : string) (job_id' session_user : string)
    (jobs : list job) : bool * list job :=
  if existsb (fun j => String.eqb (job_id j) job_id' &&
                       (String.eqb (user_id j) session_user ||
                        String.eqb session_user ADMIN_USERNAME)) jobs
  then (true, snd (stop_job ts job_id' (Some session_user) jobs))
  else (false, jobs).

(** The selection of the bulk operations. *)
Definition in_group (bulk_group_id' user_id' : string) (j : job) : bool :=
  match bulk_group_id j with
  | Some g => String.eqb g bulk_group_id'
  | None => false
  end && String.eqb (user_id j) user_id' && negb (stopped j).

(** The loop of the bulk operations, with its counter. *)
Fixpoint bulk_loop (sel : job -> bool) (act : job -> job) (jobs : list job)
    (count : nat) : list job * nat :=
  match jobs with
  | [] => ([], count)
  | j :: rest =>
      if sel j then
        let '(rest', c) := bulk_loop sel act rest (S count) in (act j :: rest', c)
      else
        let '(rest', c) := bulk_loop sel act rest count in (j :: rest', c)
  end.

Definition pause_one (ts : string) (j : job) : job :=
  set_paused true (Some ts) (resumed_at j) (next_run j) j.
Definition resume_one (ts : string) (now' : Z) (j : job) : job :=
  set_paused false (paused_at j) (Some ts) now' j.
Definition stop_one (ts : string) (j : job) : job :=
  set_stopped (Some ts) (stopped_by j) (stopped_reason j) j.

(** [pause_bulk_jobs], [resume_bulk_jobs], [stop_bulk_jobs]: the new job
    list and the count returned. *)
Definition pause_bulk_jobs (ts : string) (g u : string) (jobs : list job)
    : list job * nat :=
  bulk_loop (in_group g u) (pause_one ts) jobs 0.
Definition resume_bulk_jobs (ts : string) (now' : Z) (g u : string) (jobs : list job)
    : list job * nat :=
  bulk_loop (in_group g u) (resume_one ts now') jobs 0.
Definition stop_bulk_jobs (ts : string) (g u : string) (jobs : list job)
    : list job * nat :=
  bulk_loop (in_group g u) (stop_one ts) jobs 0.

End Lifecycle.

(** ** Concrete jobs and environments *)

Module Demo.

Local Open Scope string_scope.

(** A job as [setup_automation] creates it: quantity 100, growth 10-20%,
    every 5 minutes, first run at creation time. *)
Definition t0 : Z := 1700000000.

Definition job1 : job :=
  mkJob "job_1" "alice" "https://panel.example/api/v2" "key1" "101"
    "https://example.com/post" 100 [RFloat (fl 10); RFloat (fl 20)] 5 t0
    "2023-11-14 22:13:20" false false None None None None None None 0 [].

(** The panel fails every order, or accepts every order. *)
Definition failing_panel (_ : job) : response := Resp_other (Some "Connection error").
Definition accepting_panel (_ : job) : response := Resp_order 4242.

(** [random.random()] returning 0.5. *)
Definition half : float := S754_finite false 1 (-1).

Definition env_at (t : Z) (p : job -> response) : tick_env :=
  mkEnv t "2023-11-14 22:13:20" p (py_uniform half).

Definition users : list string := ["alice"].

End Demo.

(** ** C4: stopped jobs are left alone by the scheduler *)

Lemma process_job_stopped (env : tick_env) (users : list string) (j : job) :
  stopped j = true -> process_job env users j = j.
Proof. intros H. unfold process_job. rewrite H. reflexivity. Qed.

Lemma nth_error_tick (env : tick_env) (users : list string) (jobs : list job)
    (i : nat) (j : job) :
  nth_error jobs i = Some j ->
  nth_error (tick env users jobs) i = Some (process_job env users j).
Proof. intros H. unfold tick. rewrite nth_error_map, H. reflexivity. Qed.

(** C4.  A job with [stopped = true] at position [i] of the job list is, after
    one scheduler pass, still at position [i] and identical: same quantity,
    next_run and orders history (and every other field). *)
Theorem tick_keeps_stopped_job (env : tick_env) (users : list string)
    (jobs : list job) (i : nat) (j : job) :
  nth_error jobs i = Some j -> stopped j = true ->
  nth_error (tick env users jobs) i = Some j.
Proof.
  intros Hi Hs.
  rewrite (nth_error_tick env users jobs i j Hi), process_job_stopped by exact Hs.
  reflexivity.
Qed.

Definition stopped_job1 : job := set_stopped (Some "2023-11-14 22:20:00"%string) None None Demo.job1.

Lemma tick_keeps_stopped_job_witness :
  nth_error [stopped_job1] 0 = Some stopped_job1 /\ stopped stopped_job1 = true /\
  nth_error (tick (Demo.env_at (Demo.t0 + 600) Demo.accepting_panel) Demo.users
               [stopped_job1]) 0 = Some stopped_job1.
Proof.
  split; [reflexivity|]. split; [reflexivity|].
  apply (tick_keeps_stopped_job (Demo.env_at (Demo.t0 + 600) Demo.accepting_panel)
           Demo.users [stopped_job1] 0 stopped_job1); reflexivity.
Defined.

(** ** C1: paused jobs and the scheduler *)

Definition paused_job1 : job := Lifecycle.pause_one "2023-11-14 22:14:00"%string Demo.job1.

(** C1 (code bug).  [process_automation_jobs] never reads [paused]: a job with
    [paused = true], [stopped = false] and [next_run <= now] is dispatched by
    the next pass, its order is appended to its history, and its quantity and
    next_run are advanced. *)
Theorem tick_dispatches_paused_job :
  paused paused_job1 = true /\ stopped paused_job1 = false /\
  next_run paused_job1 <= Demo.t0 /\
  let j' := process_job (Demo.env_at Demo.t0 Demo.accepting_panel) Demo.users paused_job1 in
  orders j' = [mkOrderInfo "2023-11-14 22:13:20" 100 (Resp_order 4242) "job_1" "101"
                 "https://example.com/post"]%string /\
  quantity j' = 115 /\ next_run j' = Demo.t0 + 300 /\ paused j' = true.
Proof. vm_compute. repeat split; try reflexivity; discriminate. Qed.

(** ** C3: single-job operations on a stopped job *)

(** C3 (code bug).  On a stopped job owned by the requester, [pause_job] and
    [resume_job] report success and change the job (paused flag, timestamps,
    next_run), and [stop_job_route] reports success ("Job stopped
    successfully") and overwrites [stopped_at]; the bulk variants skip stopped
    jobs through their [not job.get('stopped', False)] test. *)
Theorem single_job_ops_on_stopped_job :
  stopped stopped_job1 = true /\
  Lifecycle.pause_job "2023-11-15 08:00:00" "job_1" "alice" [stopped_job1]
    = (true, [Lifecycle.pause_one "2023-11-15 08:00:00" stopped_job1])%string /\
  paused stopped_job1 = false /\
  Lifecycle.resume_job "2023-11-15 08:00:00" (Demo.t0 + 36000) "job_1" "alice" [stopped_job1]
    = (true, [Lifecycle.resume_one "2023-11-15 08:00:00" (Demo.t0 + 36000) stopped_job1])%string /\
  next_run stopped_job1 <> Demo.t0 + 36000 /\
  Lifecycle.stop_job_route "2023-11-15 08:00:00" "job_1" "alice" [stopped_job1]
    = (true, [set_stopped (Some "2023-11-15 08:00:00") (Some "alice") None stopped_job1])%string /\
  stopped_at stopped_job1 <> Some "2023-11-15 08:00:00"%string /\
  Lifecycle.in_group "g" "alice" (Lifecycle.pause_one "x" stopped_job1) = false.
Proof. vm_compute. repeat split; try reflexivity; discriminate. Qed.

(** ** C5: bulk operations *)

Module BulkFacts.

Lemma bulk_loop_eq (sel : job -> bool) (act : job -> job) (jobs : list job) (c : nat) :
  Lifecycle.bulk_loop sel act jobs c =
  (map (fun j => if sel j then act j else j) jobs, (c + length (filter sel jobs))%nat).
Proof.
  revert c. induction jobs as [|j rest IH]; intros c; simpl.
  - rewrite Nat.add_0_r. reflexivity.
  - destruct (sel j); rewrite IH; simpl; f_equal; lia.
Qed.

End BulkFacts.

(** The new job list [res] has the jobs of [jobs] in order, [act] applied
    exactly to those [sel] picks, and the count is the number picked. *)
Definition affects_exactly (sel : job -> bool) (act : job -> job)
    (jobs : list job) (res : list job * nat) : Prop :=
  length (fst res) = length jobs /\
  (forall i j, nth_error jobs i = Some j ->
     nth_error (fst res) i = Some (if sel j then act j else j)) /\
  snd res = length (filter sel jobs).

Lemma affects_exactly_loop (sel : job -> bool) (act : job -> job) (jobs : list job) :
  affects_exactly sel act jobs (Lifecycle.bulk_loop sel act jobs 0).
Proof.
  unfold affects_exactly. rewrite BulkFacts.bulk_loop_eq. simpl.
  split; [apply length_map|]. split; [|reflexivity].
  intros i j H. rewrite nth_error_map, H. reflexivity.
Qed.

(** C5.  [pause_bulk_jobs], [resume_bulk_jobs] and [stop_bulk_jobs] for group
    [g] and user [u] apply their single-job action exactly to the jobs whose
    [bulk_group_id] is [g], whose owner is [u] and that are not stopped, leave
    every other job as it is, and return the number of jobs acted on (a plain
    count, 0 when none is selected). *)
Theorem bulk_operations_affect_exactly (ts : string) (now' : Z) (g u : string)
    (jobs : list job) :
  (forall j, Lifecycle.in_group g u j =
             match bulk_group_id j with Some g' => String.eqb g' g | None => false end
             && String.eqb (user_id j) u && negb (stopped j)) /\
  affects_exactly (Lifecycle.in_group g u) (Lifecycle.pause_one ts) jobs
    (Lifecycle.pause_bulk_jobs ts g u jobs) /\
  affects_exactly (Lifecycle.in_group g u) (Lifecycle.resume_one ts now') jobs
    (Lifecycle.resume_bulk_jobs ts now' g u jobs) /\
  affects_exactly (Lifecycle.in_group g u) (Lifecycle.stop_one ts) jobs
    (Lifecycle.stop_bulk_jobs ts g u jobs).
Proof.
  split; [reflexivity|].
  split; [|split]; apply affects_exactly_loop.
Qed.

(** ** C7: resuming a paused job *)

Lemma update_first_find (p : job -> bool) (f : job -> job) (jobs : list job) (j : job) :
  find p jobs = Some j -> (forall x, p (f x) = p x) ->
  exists jobs', Lifecycle.update_first p f jobs = (true, jobs') /\ find p jobs' = Some (f j).
Proof.
  intros Hf Hp. induction jobs as [|x rest IH]; simpl in *; [discriminate|].
  destruct (p x) eqn:Ex.
  - injection Hf as <-. exists (f x :: rest). split; [reflexivity|].
    simpl. rewrite Hp, Ex. reflexivity.
  - destruct (IH Hf) as [rest' [Hu Hr]]. rewrite Hu.
    exists (x :: rest'). split; [reflexivity|]. simpl. rewrite Ex. exact Hr.
Qed.

Lemma process_job_appends_order (env : tick_env) (users : list string) (j : job) :
  stopped j = false -> next_run j <= now env -> fromtimestamp_ok (next_run j) = true ->
  mem_user users (user_id j) = true ->
  orders (process_job env users j) =
  orders j ++ [mkOrderInfo (stamp env) (quantity j) (panel env j) (job_id j)
                 (service_id j) (link j)].
Proof.
  intros Hs Hn Ht Hu. unfold process_job, process_job_body. rewrite Hs, Ht.
  rewrite andb_false_r. replace (next_run j <=? now env) with true by lia.
  rewrite Hu. simpl.
  destruct (calculate_next_quantity _ _ _) as [nq|]; simpl.
  - destruct (fromtimestamp_ok (now env + frequency j * 60)); [reflexivity|].
    unfold on_job_error. simpl. destruct (5 <? _); reflexivity.
  - unfold on_job_error. simpl. destruct (5 <? _); reflexivity.
Qed.

(** C7.  If the requester owns a paused, non-stopped job, [resume_job] at time
    [now'] (the value of [int(time.time())]) reports success and the job then
    has [paused = false], [next_run = now' <= now'] and [resumed_at] set; on
    every later scheduler pass at a time [>= now'] (owner known, [now'] a
    valid timestamp) the job is dispatched: its order is appended to its
    history, whatever its frequency. *)
Theorem resume_job_makes_job_due (ts : string) (now' : Z) (id u : string)
    (jobs : list job) (j : job) :
  find (Lifecycle.is_job id u) jobs = Some j -> paused j = true -> stopped j = false ->
  exists jobs' j',
    Lifecycle.resume_job ts now' id u jobs = (true, jobs') /\
    find (Lifecycle.is_job id u) jobs' = Some j' /\
    paused j' = false /\ stopped j' = false /\ next_run j' = now' /\ next_run j' <= now' /\
    resumed_at j' = Some ts /\
    (forall env users, now' <= now env -> mem_user users u = true ->
       fromtimestamp_ok now' = true ->
       orders (process_job env users j') =
       orders j' ++ [mkOrderInfo (stamp env) (quantity j') (panel env j') (job_id j')
                       (service_id j') (link j')]).
Proof.
  intros Hf Hp Hs.
  destruct (update_first_find (Lifecycle.is_job id u)
              (fun j => set_paused false (paused_at j) (Some ts) now' j) jobs j Hf)
    as [jobs' [Hu Hr]]; [reflexivity|].
  assert (Hown : user_id j = u).
  { apply find_some in Hf. destruct Hf as [_ Hf].
    unfold Lifecycle.is_job in Hf. apply andb_true_iff in Hf.
    apply String.eqb_eq. apply Hf. }
  exists jobs', (set_paused false (paused_at j) (Some ts) now' j).
  split; [exact Hu|]. split; [exact Hr|].
  split; [reflexivity|]. split; [exact Hs|]. split; [reflexivity|].
  split; [simpl; lia|]. split; [reflexivity|].
  intros env users Hn Hm Ht.
  apply process_job_appends_order; simpl; auto.
  rewrite Hown. exact Hm.
Qed.

Lemma resume_job_makes_job_due_witness :
  find (Lifecycle.is_job "job_1" "alice") [paused_job1] = Some paused_job1 /\
  paused paused_job1 = true /\ stopped paused_job1 = false /\
  exists jobs' j',
    Lifecycle.resume_job "2023-11-15 08:00:00" (Demo.t0 + 36000) "job_1" "alice" [paused_job1]
      = (true, jobs') /\
    find (Lifecycle.is_job "job_1" "alice") jobs' = Some j' /\
    paused j' = false /\ stopped j' = false /\ next_run j' = Demo.t0 + 36000 /\
    next_run j' <= Demo.t0 + 36000 /\
    resumed_at j' = Some "2023-11-15 08:00:00"%string /\
    (forall env users, Demo.t0 + 36000 <= now env -> mem_user users "alice" = true ->
       fromtimestamp_ok (Demo.t0 + 36000) = true ->
       orders (process_job env users j') =
       orders j' ++ [mkOrderInfo (stamp env) (quantity j') (panel env j') (job_id j')
                       (service_id j') (link j')]).
Proof.
  split; [reflexivity|]. split; [reflexivity|]. split; [reflexivity|].
  apply (resume_job_makes_job_due "2023-11-15 08:00:00" (Demo.t0 + 36000) "job_1" "alice"
           [paused_job1] paused_job1); reflexivity.
Defined.

(** ** C2: failed dispatches and the error threshold *)

Definition failing_envs (n : nat) : list tick_env :=
  map (fun k => Demo.env_at (Demo.t0 + 300 * Z.of_nat k) Demo.failing_panel) (seq 0 n).

(** C2 (counterexample).  [place_order] returns the panel's error reply
    instead of raising, so a job whose order fails on 6 consecutive fires
    (every 5 minutes) has, after the 6th, 6 failed orders in its history,
    [error_count = 0] and [stopped = false]; the 7th pass dispatches it again. *)
Lemma six_failed_dispatches_do_not_stop :
  let js6 := run_ticks (failing_envs 6) Demo.users [Demo.job1] in
  map (fun j => map oi_response (orders j)) js6
    = [repeat (Resp_other (Some "Connection error"%string)) 6] /\
  map stopped js6 = [false] /\ map error_count js6 = [0] /\
  map (fun j => length (orders j))
      (tick (Demo.env_at (Demo.t0 + 1800) Demo.failing_panel) Demo.users js6) = [7%nat].
Proof. vm_compute. repeat split; reflexivity. Qed.

Lemma process_job_panel_independent (t : Z) (s : string) (p1 p2 : job -> response)
    (uf : float -> float -> float) (users : list string) (j : job) :
  let j1 := process_job (mkEnv t s p1 uf) users j in
  let j2 := process_job (mkEnv t s p2 uf) users j in
  error_count j1 = error_count j2 /\ stopped j1 = stopped j2 /\
  stopped_reason j1 = stopped_reason j2 /\
  quantity j1 = quantity j2 /\ next_run j1 = next_run j2 /\
  length (orders j1) = length (orders j2).
Proof.
  unfold process_job, process_job_body. cbn [now stamp panel uniform].
  destruct (stopped j); [repeat split; reflexivity|].
  destruct ((0 <? next_run j) && negb (fromtimestamp_ok (next_run j)));
    [repeat split; reflexivity|].
  destruct (next_run j <=? t); [|repeat split; reflexivity].
  destruct (negb (mem_user users (user_id j))); [repeat split; reflexivity|].
  destruct (calculate_next_quantity uf (quantity j) (increase_range j)) as [nq|].
  - cbn. destruct (fromtimestamp_ok (t + frequency j * 60));
      [|unfold on_job_error; cbn; destruct (5 <? error_count j + 1)];
      cbn; rewrite ?length_app; repeat split; reflexivity.
  - unfold on_job_error; cbn. destruct (5 <? error_count j + 1);
      cbn; rewrite ?length_app; repeat split; reflexivity.
Qed.

Lemma process_job_stops_only_on_errors (env : tick_env) (users : list string) (j : job) :
  stopped j = false -> stopped (process_job env users j) = true ->
  error_count (process_job env users j) = error_count j + 1 /\
  5 < error_count (process_job env users j) /\
  exists msg, stopped_reason (process_job env users j) = Some ("Too many errors: " ++ msg)%string.
Proof.
  intros Hs. unfold process_job. rewrite Hs.
  unfold process_job_body.
  destruct ((0 <? next_run j) && negb (fromtimestamp_ok (next_run j))).
  - unfold on_job_error. cbn. destruct (5 <? error_count j + 1) eqn:E; cbn.
    + intros _. apply Z.ltb_lt in E. split; [reflexivity|]. split; [exact E|]. eauto.
    + rewrite Hs. discriminate.
  - destruct (next_run j <=? now env); [|rewrite Hs; discriminate].
    destruct (negb (mem_user users (user_id j))); [rewrite Hs; discriminate|].
    destruct (calculate_next_quantity _ _ _) as [nq|].
    + cbn. destruct (fromtimestamp_ok (now env + frequency j * 60)); cbn;
        [rewrite Hs; discriminate|].
      unfold on_job_error. cbn. destruct (5 <? error_count j + 1) eqn:E; cbn.
      * intros _. apply Z.ltb_lt in E. split; [reflexivity|]. split; [exact E|]. eauto.
      * rewrite Hs. discriminate.
    + unfold on_job_error. cbn. destruct (5 <? error_count j + 1) eqn:E; cbn.
      * intros _. apply Z.ltb_lt in E. split; [reflexivity|]. split; [exact E|]. eauto.
      * rewrite Hs. discriminate.
Qed.

(** C2 (amended).  A failed dispatch is not an error for the scheduler: what
    the panel replies changes only the recorded reply, never [error_count],
    [stopped], [stopped_reason], the new quantity, the new [next_run] or the
    length of the history.  The scheduler sets [stopped = true] only in its
    exception handler, when the incremented [error_count] exceeds 5, with a
    ["Too many errors: ..."] reason; a stopped job is not processed again. *)
Theorem scheduler_error_policy :
  (forall (t : Z) (s : string) (p1 p2 : job -> response)
          (uf : float -> float -> float) (users : list string) (j : job),
     let j1 := process_job (mkEnv t s p1 uf) users j in
     let j2 := process_job (mkEnv t s p2 uf) users j in
     error_count j1 = error_count j2 /\ stopped j1 = stopped j2 /\
     stopped_reason j1 = stopped_reason j2 /\
     quantity j1 = quantity j2 /\ next_run j1 = next_run j2 /\
     length (orders j1) = length (orders j2)) /\
  (forall (env : tick_env) (users : list string) (j : job),
     stopped j = false -> stopped (process_job env users j) = true ->
     error_count (process_job env users j) = error_count j + 1 /\
     5 < error_count (process_job env users j) /\
     exists msg, stopped_reason (process_job env users j)
                 = Some ("Too many errors: " ++ msg)%string) /\
  (forall (env : tick_env) (users : list string) (j : job),
     stopped j = true -> process_job env users j = j).
Proof.
  split; [exact process_job_panel_independent|].
  split; [exact process_job_stops_only_on_errors|].
  exact process_job_stopped.
Qed.

(** A job at its 6th error: its [next_run] is out of [datetime]'s range. *)
Definition erring_job : job :=
  set_error_count 5 (set_schedule 100 300000000000 Demo.job1).

Lemma scheduler_error_policy_witness :
  stopped erring_job = false /\
  stopped (process_job (Demo.env_at Demo.t0 Demo.accepting_panel) Demo.users erring_job) = true /\
  (error_count (process_job (Demo.env_at Demo.t0 Demo.accepting_panel) Demo.users erring_job)
     = error_count erring_job + 1 /\
   5 < error_count (process_job (Demo.env_at Demo.t0 Demo.accepting_panel) Demo.users erring_job) /\
   exists msg, stopped_reason (process_job (Demo.env_at Demo.t0 Demo.accepting_panel)
                                 Demo.users erring_job)
               = Some ("Too many errors: " ++ msg)%string) /\
  stopped stopped_job1 = true /\
  process_job (Demo.env_at Demo.t0 Demo.failing_panel) Demo.users stopped_job1 = stopped_job1.
Proof.
  split; [reflexivity|]. split; [vm_compute; reflexivity|].
  split; [apply (proj1 (proj2 scheduler_error_policy)); vm_compute; reflexivity|].
  split; [reflexivity|].
  apply (proj2 (proj2 scheduler_error_policy)). reflexivity.
Defined.

(** ** Job creation *)

Module Create.

Local Open Scope string_scope.

(** One [individual_*_{i}] group of fields of the web form, parsed. *)
Record service_config := mkServiceConfig {
  sc_service_id : string;
  sc_quantity : Z;
  sc_increase_min : float;
  sc_increase_max : float;
  sc_frequency : Z
}.

(** The POST form of [/setup_automation], with [int()]/[float()] applied and
    the multi-line fields split, stripped and emptied lines dropped. *)
Record setup_form := mkSetupForm {
  f_api_url : string;
  f_api_key : string;
  f_service_id : string;
  f_bulk_service_ids : list string;
  f_quantity : Z;
  f_increase_min : float;
  f_increase_max : float;
  f_frequency : Z;
  f_bulk_mode : bool;
  f_individual_settings : bool;
  f_bulk_links : list string;
  f_link : string;
  f_service_configs : list service_config
}.

Inductive setup_result :=
| Setup_error (flash : string)
| Setup_created (jobs : list job).

Definition clamp_frequency (f : Z) : Z := if (f <? 5)%Z then 5%Z else f.

(** A new job dict as the creation paths write it. *)
Definition new_job (id user url key sid lnk : string) (q : Z) (mn mx : float)
    (freq now' : Z) (ts : string) (group : option string) : job :=
  mkJob id user url key sid lnk q [RFloat mn; RFloat mx] freq now' ts
    false false group None None None None None 0 [].

(** [generate_job_id()] called once per job, in creation order. *)
Fixpoint assign_ids (new_id : nat -> string) (k : nat) (mk : list (string -> job))
    : list job :=
  match mk with
  | [] => []
  | f :: rest => f (new_id k) :: assign_ids new_id (S k) rest
  end.

(** [setup_automation] (POST), up to the jobs appended to [background_jobs]:
    [uuid] is [uuid.uuid4()], [new_id k] the [k]-th [generate_job_id()]. *)
Definition setup_automation (uuid : string) (new_id : nat -> string) (now' : Z)
    (ts : string) (user : string) (f : setup_form) : setup_result :=
  let frequency := clamp_frequency (f_frequency f) in
  let '(links, bulk_group_id) :=
    if f_bulk_mode f then (f_bulk_links f, Some ("bulk_" ++ uuid))
    else ([f_link f], None) in
  if f_bulk_mode f && (length links =? 0)%nat then
    Setup_error "Please enter at least one link for bulk automation"
  else if f_bulk_mode f && (10 <? length links)%nat then
    Setup_error "Maximum 10 links allowed for bulk automation"
  else if f_individual_settings f && f_bulk_mode f then
    match f_service_configs f with
    | [] => Setup_error "No service configurations found"
    | configs =>
        Setup_created (assign_ids new_id 0
          (flat_map (fun c => map (fun lnk id =>
             new_job id user (f_api_url f) (f_api_key f) (sc_service_id c) lnk
               (sc_quantity c) (sc_increase_min c) (sc_increase_max c)
               (clamp_frequency (sc_frequency c)) now' ts
               (if f_bulk_mode f then bulk_group_id else None)) links) configs))
    end
  else
    Setup_created (assign_ids new_id 0
      (flat_map (fun lnk => map (fun sid id =>
         new_job id user (f_api_url f) (f_api_key f) sid lnk (f_quantity f)
           (f_increase_min f) (f_increase_max f) frequency now' ts None)
         (f_service_id f :: f_bulk_service_ids f)) links)).

(** The [data] of a finished [/newjob] conversation: the list steps, and the
    quantity and frequency that passed [validate_job_parameters]. *)
Record tg_job_data := mkTgJobData {
  api_urls : list string;
  api_keys : list string;
  target_links : list string;
  service_ids : list string;
  tg_quantity : Z;
  tg_increase_min : float;
  tg_increase_max : float;
  tg_frequency : Z
}.

(** [l[i] if i < len(l) else l[0]]; [None] when [l] is empty (IndexError). *)
Definition pick (l : list string) (i : nat) : option string :=
  if (i <? length l)%nat then nth_error l i else hd_error l.

Fixpoint all_some {A : Type} (l : list (option A)) : option (list A) :=
  match l with
  | [] => Some []
  | None :: _ => None
  | Some x :: rest => match all_some rest with Some r => Some (x :: r) | None => None end
  end.

Definition tg_max_jobs (d : tg_job_data) : nat :=
  let m := Nat.max (length (api_urls d)) (Nat.max (length (target_links d)) (length (service_ids d))) in
  if (10 <? m)%nat then 10%nat else m.

(** [create_jobs_from_telegram]: [Some jobs] for the jobs appended to
    [background_jobs] (the function returns their number); [None] when an
    exception is caught (it returns 0 and appends nothing).  [uuid i] is the
    [uuid.uuid4()] of the [i]-th job. *)
Definition create_jobs_from_telegram (uuid : nat -> string) (now' : Z) (ts : string)
    (user : string) (d : tg_job_data) : option (list job) :=
  all_some (map (fun i =>
    match pick (api_urls d) i, pick (api_keys d) i, pick (service_ids d) i,
          pick (target_links d) i with
    | Some url, Some key, Some sid, Some lnk =>
        Some (new_job ("job_" ++ uuid i) user url key sid lnk (tg_quantity d)
                (tg_increase_min d) (tg_increase_max d) (tg_frequency d) now' ts None)
    | _, _, _, _ => None
    end) (seq 0 (tg_max_jobs d))).

End Create.

Module CreateFacts.

Import Create.

Lemma assign_ids_forall (P : job -> Prop) (new_id : nat -> string) (k : nat)
    (mk : list (string -> job)) :
  (forall g id, In g mk -> P (g id)) -> forall j, In j (assign_ids new_id k mk) -> P j.
Proof.
  revert k. induction mk as [|g rest IH]; intros k H j Hj; simpl in Hj; [contradiction|].
  destruct Hj as [<-|Hj].
  - apply H. left. reflexivity.
  - apply (IH (S k)); [|exact Hj]. intros g' id Hg. apply H. right. exact Hg.
Qed.

Lemma pick_nonempty (l : list string) (i : nat) :
  l <> [] -> pick l i = Some (match nth_error l i with Some x => x | None => hd ""%string l end).
Proof.
  intros Hl. unfold pick. destruct (Nat.ltb_spec i (length l)) as [Hi|Hi].
  - destruct (nth_error l i) eqn:E; [reflexivity|].
    apply nth_error_None in E. lia.
  - replace (nth_error l i) with (@None string) by (symmetry; apply nth_error_None; exact Hi).
    destruct l; [contradiction|reflexivity].
Qed.

Lemma all_some_map {A B : Type} (g : A -> B) (l : list A) :
  all_some (map (fun x => Some (g x)) l) = Some (map g l).
Proof. induction l as [|x rest IH]; simpl; [reflexivity|]. rewrite IH. reflexivity. Qed.

Lemma tg_max_jobs_min (d : tg_job_data) :
  tg_max_jobs d = Nat.min 10 (Nat.max (length (api_urls d))
                    (Nat.max (length (target_links d)) (length (service_ids d)))).
Proof.
  unfold tg_max_jobs.
  destruct (Nat.ltb_spec 10 (Nat.max (length (api_urls d))
              (Nat.max (length (target_links d)) (length (service_ids d))))); lia.
Qed.

End CreateFacts.

(** ** C8: bulk group ids of created jobs *)

Definition individual_form : Create.setup_form :=
  Create.mkSetupForm "https://panel.example/api/v2" "key1" "101" [] 100 (fl 10) (fl 20) 60
    true true ["https://example.com/post"%string] ""
    [Create.mkServiceConfig "101" 100 (fl 10) (fl 20) 60].

Definition bulk_form : Create.setup_form :=
  Create.mkSetupForm "https://panel.example/api/v2" "key1" "101" [] 100 (fl 10) (fl 20) 60
    true false ["https://example.com/a"%string; "https://example.com/b"%string] "" [].

Definition demo_ids (k : nat) : string :=
  String.append "job_" (String (Ascii.ascii_of_nat (48 + k)) EmptyString).

(** An individual-settings request with one service configuration and one
    link produces exactly one job, and that job carries the request's bulk
    group id. *)
Lemma single_job_request_has_group :
  exists j, Create.setup_automation "u1" demo_ids Demo.t0 "2023-11-14 22:13:20" "alice"
              individual_form = Create.Setup_created [j] /\
            bulk_group_id j = Some "bulk_u1"%string.
Proof. eexists. split; reflexivity. Qed.

(** Every job produced by one individual-settings request of the web form
    (which requires bulk mode) carries the same bulk group id,
    ["bulk_" ++ uuid], also when only one job is produced: the only branch of
    [setup_automation] that writes a group id. *)
Theorem individual_settings_jobs_share_group (uuid : string) (new_id : nat -> string)
    (now' : Z) (ts user : string) (f : Create.setup_form) (jobs : list job) :
  Create.f_individual_settings f = true -> Create.f_bulk_mode f = true ->
  Create.setup_automation uuid new_id now' ts user f = Create.Setup_created jobs ->
  forall j, In j jobs -> bulk_group_id j = Some ("bulk_" ++ uuid)%string.
Proof.
  intros Hi Hb. unfold Create.setup_automation. rewrite Hi, Hb. simpl.
  destruct (length (Create.f_bulk_links f) =? 0)%nat; [discriminate|].
  destruct (10 <? length (Create.f_bulk_links f))%nat; [discriminate|].
  destruct (Create.f_service_configs f) as [|c cs] eqn:Ec; [discriminate|].
  intros H. injection H as <-.
  apply CreateFacts.assign_ids_forall.
  intros g id Hg. apply in_app_or in Hg.
  destruct Hg as [Hg|Hg]; [|apply in_flat_map in Hg; destruct Hg as [c' [_ Hg]]];
    apply in_map_iff in Hg; destruct Hg as [lnk [<- _]]; reflexivity.
Qed.

Lemma individual_settings_jobs_share_group_witness :
  Create.f_individual_settings individual_form = true /\
  Create.f_bulk_mode individual_form = true /\
  (forall j, In j (match Create.setup_automation "u1" demo_ids Demo.t0 "2023-11-14 22:13:20"
                          "alice" individual_form with
                   | Create.Setup_created js => js | Create.Setup_error _ => [] end) ->
             bulk_group_id j = Some ("bulk_" ++ "u1")%string).
Proof.
  split; [reflexivity|]. split; [reflexivity|].
  apply (individual_settings_jobs_share_group "u1" demo_ids Demo.t0 "2023-11-14 22:13:20"
           "alice" individual_form); reflexivity.
Defined.

(** Claim C8 (code bug).  A bulk-mode web request with two links and no
    individual settings produces two jobs, and neither carries a bulk group
    id: [setup_automation] computes ["bulk_" ++ uuid] in bulk mode but its
    bulk-or-single branch writes no group id into the jobs it creates. *)
Theorem bulk_request_jobs_lack_group :
  Create.f_bulk_mode bulk_form = true /\ Create.f_individual_settings bulk_form = false /\
  exists j1 j2, Create.setup_automation "u1" demo_ids Demo.t0 "2023-11-14 22:13:20" "alice"
                  bulk_form = Create.Setup_created [j1; j2] /\
                bulk_group_id j1 = None /\ bulk_group_id j2 = None.
Proof.
  split; [reflexivity|]. split; [reflexivity|].
  do 2 eexists. split; [reflexivity|]. split; reflexivity.
Qed.

(** ** C10: pairing in the conversational job builder *)

(** The claim's rule for one field: the [i]-th element of the list, or its
    first element at positions beyond its length. *)
Definition broadcast_field (l : list string) (i : nat) : string :=
  match nth_error l i with Some x => x | None => hd ""%string l end.

(** C10.  With non-empty lists of API URLs, API keys, links and service ids,
    [create_jobs_from_telegram] creates (and does not fail) exactly
    [min(10, max(len(api_urls), len(target_links), len(service_ids)))] jobs;
    job [i] takes the [i]-th URL, key, service id and link, or the list's
    first element where the list is shorter than [i + 1]. *)
Theorem create_jobs_from_telegram_pairing (uuid : nat -> string) (now' : Z)
    (ts user : string) (d : Create.tg_job_data) :
  Create.api_urls d <> [] -> Create.api_keys d <> [] ->
  Create.target_links d <> [] -> Create.service_ids d <> [] ->
  exists jobs,
    Create.create_jobs_from_telegram uuid now' ts user d = Some jobs /\
    length jobs = Nat.min 10 (Nat.max (length (Create.api_urls d))
                    (Nat.max (length (Create.target_links d)) (length (Create.service_ids d)))) /\
    forall i j, nth_error jobs i = Some j ->
      api_url j = broadcast_field (Create.api_urls d) i /\
      api_key j = broadcast_field (Create.api_keys d) i /\
      service_id j = broadcast_field (Create.service_ids d) i /\
      link j = broadcast_field (Create.target_links d) i.
Proof.
  intros Hu Hk Hl Hs.
  set (g := fun i => Create.new_job ("job_" ++ uuid i)%string user
              (broadcast_field (Create.api_urls d) i) (broadcast_field (Create.api_keys d) i)
              (broadcast_field (Create.service_ids d) i) (broadcast_field (Create.target_links d) i)
              (Create.tg_quantity d) (Create.tg_increase_min d) (Create.tg_increase_max d)
              (Create.tg_frequency d) now' ts None).
  exists (map g (seq 0 (Create.tg_max_jobs d))).
  split; [|split].
  - unfold Create.create_jobs_from_telegram.
    rewrite <- (CreateFacts.all_some_map g). f_equal.
    apply map_ext. intros i.
    rewrite !CreateFacts.pick_nonempty by assumption. reflexivity.
  - rewrite length_map, length_seq. apply CreateFacts.tg_max_jobs_min.
  - intros i j Hj. rewrite nth_error_map, nth_error_seq in Hj.
    destruct (i <? Create.tg_max_jobs d)%nat; [|discriminate].
    injection Hj as <-. repeat split.
Qed.

Definition tg_demo : Create.tg_job_data :=
  Create.mkTgJobData ["https://panel.example/api/v2"%string] ["key1"%string]
    ["https://example.com/a"%string; "https://example.com/b"%string]
    ["101"%string; "102"%string; "103"%string] 50 (fl 5) (fl 5) 10.

Example tg_demo_third_job :
  option_map (map link) (Create.create_jobs_from_telegram demo_ids Demo.t0 "ts"%string
                            "alice"%string tg_demo)
  = Some ["https://example.com/a"; "https://example.com/b"; "https://example.com/a"]%string.
Proof. reflexivity. Qed.

Lemma create_jobs_from_telegram_pairing_witness :
  Create.api_urls tg_demo <> [] /\ Create.api_keys tg_demo <> [] /\
  Create.target_links tg_demo <> [] /\ Create.service_ids tg_demo <> [] /\
  exists jobs,
    Create.create_jobs_from_telegram demo_ids Demo.t0 "ts"%string "alice"%string tg_demo = Some jobs /\
    length jobs = Nat.min 10 (Nat.max (length (Create.api_urls tg_demo))
                    (Nat.max (length (Create.target_links tg_demo))
                             (length (Create.service_ids tg_demo)))) /\
    forall i j, nth_error jobs i = Some j ->
      api_url j = broadcast_field (Create.api_urls tg_demo) i /\
      api_key j = broadcast_field (Create.api_keys tg_demo) i /\
      service_id j = broadcast_field (Create.service_ids tg_demo) i /\
      link j = broadcast_field (Create.target_links tg_demo) i.
Proof.
  split; [discriminate|]. split; [discriminate|]. split; [discriminate|].
  split; [discriminate|].
  apply (create_jobs_from_telegram_pairing demo_ids Demo.t0 "ts"%string "alice"%string tg_demo);
    discriminate.
Defined.

(** ** Persistence: [save_data] and [load_data] (src/config.py) *)

Module Persist.

Local Set Warnings "-register-all".

Local Open Scope string_scope.

(** The Python values the collections hold.  Dict keys are strings, as in
    every dict of the program; a dict is its list of items in insertion
    order, keys distinct. *)
Inductive pyval :=
| PNone
| PBool (b : bool)
| PInt (n : Z)
| PFloat (f : float)
| PStr (s : string)
| PList (l : list pyval)
| PTuple (l : list pyval)
| PDict (items : list (string * pyval)).

(** A JSON document as [json.dump] writes it and [json.load] reads it. *)
Inductive json :=
| JNull
| JBool (b : bool)
| JInt (n : Z)
| JFloat (f : float)
| JStr (s : string)
| JArr (l : list json)
| JObj (members : list (string * json)).

(** [json.dump]: lists and tuples become arrays, dicts objects. *)
Fixpoint encode (v : pyval) : json :=
  match v with
  | PNone => JNull
  | PBool b => JBool b
  | PInt n => JInt n
  | PFloat f => JFloat f
  | PStr s => JStr s
  | PList l => JArr (map encode l)
  | PTuple l => JArr (map encode l)
  | PDict items => JObj (map (fun kv => (fst kv, encode (snd kv))) items)
  end.

(** [d[k] = v] on a dict: replace in place, or append a new key. *)
Fixpoint dict_set (d : list (string * pyval)) (k : string) (v : pyval)
    : list (string * pyval) :=
  match d with
  | [] => [(k, v)]
  | (k', v') :: rest =>
      if String.eqb k k' then (k, v) :: rest else (k', v') :: dict_set rest k v
  end.

(** The dict [json.load] builds from an object's members (a repeated key
    keeps its first position and its last value). *)
Definition dict_of_pairs (members : list (string * pyval)) : list (string * pyval) :=
  fold_left (fun d kv => dict_set d (fst kv) (snd kv)) members [].

(** [json.load]: arrays become lists, objects dicts. *)
Fixpoint decode (j : json) : pyval :=
  match j with
  | JNull => PNone
  | JBool b => PBool b
  | JInt n => PInt n
  | JFloat f => PFloat f
  | JStr s => PStr s
  | JArr l => PList (map decode l)
  | JObj members => PDict (dict_of_pairs (map (fun kv => (fst kv, decode (snd kv))) members))
  end.

(** The files under [data/]: path to content. *)
Definition fs := string -> option json.

Definition fs_write (p : string) (doc : json) (files : fs) : fs :=
  fun q => if String.eqb q p then Some doc else files q.
Definition fs_remove (p : string) (files : fs) : fs :=
  fun q => if String.eqb q p then None else files q.
(** [os.rename(src, dst)] once [dst] has been removed. *)
Definition fs_rename (src dst : string) (files : fs) : fs :=
  match files src with
  | Some doc => fs_remove src (fs_write dst doc files)
  | None => files
  end.

(** The module-level collections of src/config.py. *)
Record state := mkState {
  user_data : list (string * pyval);
  activation_keys : list (string * pyval);
  active_users : list pyval;
  bot_statistics : list (string * pyval);
  background_jobs : list pyval;
  telegram_verification_codes : list (string * pyval)
}.

(** The [data_files] dict of [save_data]: file name and content. *)
Definition data_files (st : state) : list (string * json) :=
  [("user_data.json", encode (PDict (user_data st)));
   ("activation_keys.json", encode (PDict (activation_keys st)));
   ("active_users.json", encode (PList (active_users st)));
   ("bot_statistics.json", encode (PDict (bot_statistics st)));
   ("background_jobs.json", encode (PList (background_jobs st)));
   ("telegram_verification_codes.json", encode (PDict (telegram_verification_codes st)))].

Definition tmp_path (name : string) : string := "data/temp/" ++ name ++ ".tmp".
Definition final_path (name : string) : string := "data/" ++ name.

(** [save_data]: write every temporary file (the re-reading validation
    changes nothing), then for each one remove the permanent file and rename
    the temporary file onto it. *)
Definition save_data (st : state) (files : fs) : fs :=
  let files1 := fold_left (fun f nd => fs_write (tmp_path (fst nd)) (snd nd) f)
                  (data_files st) files in
  fold_left (fun f nd =>
      match f (tmp_path (fst nd)) with
      | Some _ => fs_rename (tmp_path (fst nd)) (final_path (fst nd))
                    (fs_remove (final_path (fst nd)) f)
      | None => f
      end) (data_files st) files1.

Definition load_dict (files : fs) (name : string) (cur : list (string * pyval))
    : list (string * pyval) :=
  match files (final_path name) with
  | Some doc => match decode doc with PDict d => d | _ => cur end
  | None => cur
  end.

Definition load_list (files : fs) (name : string) (cur : list pyval) : list pyval :=
  match files (final_path name) with
  | Some doc => match decode doc with PList l => l | _ => cur end
  | None => cur
  end.

(** [load_data]: each collection is replaced by its file's content when the
    file exists and holds a value of the collection's type. *)
Definition load_data (files : fs) (st : state) : state :=
  mkState (load_dict files "user_data.json" (user_data st))
          (load_dict files "activation_keys.json" (activation_keys st))
          (load_list files "active_users.json" (active_users st))
          (load_dict files "bot_statistics.json" (bot_statistics st))
          (load_list files "background_jobs.json" (background_jobs st))
          (load_dict files "telegram_verification_codes.json" (telegram_verification_codes st)).

End Persist.

Module PersistFacts.
Import Persist.

(** Values that [json.dump] writes back without change of type: no tuple
    anywhere, and every dict with distinct keys (which a Python dict has). *)
Fixpoint distinct_keys (ks : list string) : bool :=
  match ks with
  | [] => true
  | k :: rest => negb (existsb (String.eqb k) rest) && distinct_keys rest
  end.

Fixpoint json_native (v : pyval) : bool :=
  match v with
  | PTuple _ => false
  | PList l => forallb json_native l
  | PDict items =>
      distinct_keys (map fst items) && forallb (fun kv => json_native (snd kv)) items
  | _ => true
  end.

Definition state_native (st : state) : bool :=
  json_native (PDict (user_data st)) && json_native (PDict (activation_keys st)) &&
  json_native (PList (active_users st)) && json_native (PDict (bot_statistics st)) &&
  json_native (PList (background_jobs st)) &&
  json_native (PDict (telegram_verification_codes st)).

Lemma pyval_ind' (P : pyval -> Prop)
  (hNone : P PNone) (hBool : forall b, P (PBool b)) (hInt : forall n, P (PInt n))
  (hFloat : forall f, P (PFloat f)) (hStr : forall s, P (PStr s))
  (hList : forall l, Forall P l -> P (PList l))
  (hTuple : forall l, Forall P l -> P (PTuple l))
  (hDict : forall items, Forall (fun kv => P (snd kv)) items -> P (PDict items)) :
  forall v, P v.
Proof.
  fix IH 1. intros [| | | | |l|l|items].
  - exact hNone.
  - apply hBool.
  - apply hInt.
  - apply hFloat.
  - apply hStr.
  - apply hList.
    exact ((fix F (l : list pyval) : Forall P l :=
              match l with
              | [] => Forall_nil _
              | x :: r => Forall_cons x (IH x) (F r)
              end) l).
  - apply hTuple.
    exact ((fix F (l : list pyval) : Forall P l :=
              match l with
              | [] => Forall_nil _
              | x :: r => Forall_cons x (IH x) (F r)
              end) l).
  - apply hDict.
    exact ((fix F (items : list (string * pyval)) : Forall (fun kv => P (snd kv)) items :=
              match items with
              | [] => Forall_nil _
              | (k, x) :: r => Forall_cons (k, x) (IH x) (F r)
              end) items).
Qed.

Lemma encode_PList l : encode (PList l) = JArr (map encode l).
Proof. reflexivity. Qed.
Lemma encode_PDict items :
  encode (PDict items) = JObj (map (fun kv => (fst kv, encode (snd kv))) items).
Proof. reflexivity. Qed.
Lemma decode_JArr l : decode (JArr l) = PList (map decode l).
Proof. reflexivity. Qed.
Lemma decode_JObj members :
  decode (JObj members) =
  PDict (dict_of_pairs (map (fun kv => (fst kv, decode (snd kv))) members)).
Proof. reflexivity. Qed.

Lemma dict_set_fresh d k v :
  existsb (String.eqb k) (map fst d) = false -> dict_set d k v = d ++ [(k, v)].
Proof.
  induction d as [|[k' v'] d IH]; simpl; intros H; [reflexivity|].
  apply orb_false_iff in H as [H1 H2]. rewrite H1, IH by exact H2. reflexivity.
Qed.

Lemma distinct_keys_app_fresh a k b :
  distinct_keys (a ++ k :: b) = true -> existsb (String.eqb k) a = false.
Proof.
  induction a as [|x a IH]; simpl; intros H; [reflexivity|].
  apply andb_prop in H as [H1 H2]. apply negb_true_iff in H1.
  rewrite existsb_app in H1. apply orb_false_iff in H1 as [_ H1]. simpl in H1.
  apply orb_false_iff in H1 as [H1 _]. rewrite String.eqb_sym, H1. simpl. auto.
Qed.

Lemma dict_of_pairs_acc acc l :
  distinct_keys (map fst (acc ++ l)) = true ->
  fold_left (fun d kv => dict_set d (fst kv) (snd kv)) l acc = acc ++ l.
Proof.
  revert acc. induction l as [|[k v] l IH]; intros acc H; simpl.
  - rewrite app_nil_r. reflexivity.
  - rewrite dict_set_fresh.
    + rewrite IH; rewrite <- app_assoc; [reflexivity|exact H].
    + rewrite map_app in H. simpl in H. eapply distinct_keys_app_fresh. exact H.
Qed.

Lemma dict_of_pairs_distinct items :
  distinct_keys (map fst items) = true -> dict_of_pairs items = items.
Proof. intros H. apply (dict_of_pairs_acc [] items H). Qed.

(** [json.load] inverts [json.dump] on JSON-native values. *)
Lemma decode_encode v : json_native v = true -> decode (encode v) = v.
Proof.
  induction v as [| | | | |l Hl|l Hl|items Hi] using pyval_ind'; intros Hv;
    try reflexivity; try discriminate.
  - rewrite encode_PList, decode_JArr, map_map. f_equal. simpl in Hv.
    induction Hl as [|x l Hx Hl IHl]; simpl in *; [reflexivity|].
    apply andb_prop in Hv as [H1 H2]. rewrite (Hx H1), (IHl H2). reflexivity.
  - rewrite encode_PDict, decode_JObj, map_map. simpl in Hv.
    apply andb_prop in Hv as [Hk Hv]. f_equal.
    assert (E : map (fun kv => (fst kv, decode (encode (snd kv)))) items = items).
    { clear Hk. induction Hi as [|[k x] items Hx Hi IHi]; simpl in *; [reflexivity|].
      apply andb_prop in Hv as [H1 H2]. rewrite (Hx H1), (IHi H2). reflexivity. }
    simpl. rewrite E. apply dict_of_pairs_distinct. exact Hk.
Qed.

(** After [save_data] each permanent file holds its collection's dump. *)
Lemma save_data_files st files :
  let files' := save_data st files in
  files' (final_path "user_data.json"%string) = Some (encode (PDict (user_data st))) /\
  files' (final_path "activation_keys.json"%string) = Some (encode (PDict (activation_keys st))) /\
  files' (final_path "active_users.json"%string) = Some (encode (PList (active_users st))) /\
  files' (final_path "bot_statistics.json"%string) = Some (encode (PDict (bot_statistics st))) /\
  files' (final_path "background_jobs.json"%string) = Some (encode (PList (background_jobs st))) /\
  files' (final_path "telegram_verification_codes.json"%string) =
    Some (encode (PDict (telegram_verification_codes st))).
Proof. repeat split; reflexivity. Qed.

End PersistFacts.

Module PersistDemo.
Import Persist.
Local Open Scope string_scope.

Definition no_files : fs := fun _ => None.
Definition empty_state : state := mkState [] [] [] [] [] [].

(** A job whose growth range is the tuple [(10, 20)]. *)
Definition tuple_job : pyval :=
  PDict [("job_id", PStr "job_1"); ("quantity", PInt 100);
         ("increase_range", PTuple [PInt 10; PInt 20]); ("stopped", PBool false)].

(** A job as the program builds it: JSON-native throughout. *)
Definition list_job : pyval :=
  PDict [("job_id", PStr "job_1"); ("user_id", PStr "alice"); ("quantity", PInt 100);
         ("increase_range", PList [PInt 10; PInt 20]); ("frequency", PInt 5);
         ("next_run", PInt 1700000000); ("stopped", PBool false);
         ("orders", PList [PDict [("quantity", PInt 100);
                                  ("response", PDict [("order", PInt 4242)])]])].

Definition demo_state : state :=
  mkState [("alice", PDict [("activated", PBool true)])] [] [PStr "alice"]
          [("total_orders", PInt 1)] [list_job] [].

End PersistDemo.

(** Claim C9 (counterexample): a job list holding a tuple, which [json.dump]
    accepts, comes back from [save_data] then [load_data] with the tuple
    turned into a list, so the reloaded job is not the saved one. *)
Lemma save_load_changes_tuple_job :
  Persist.background_jobs
    (Persist.load_data
       (Persist.save_data
          (Persist.mkState [] [] [] [] [PersistDemo.tuple_job] []) PersistDemo.no_files)
       PersistDemo.empty_state) =
    [Persist.PDict [("job_id", Persist.PStr "job_1"); ("quantity", Persist.PInt 100);
                    ("increase_range", Persist.PList [Persist.PInt 10; Persist.PInt 20]);
                    ("stopped", Persist.PBool false)]]%string /\
  [PersistDemo.tuple_job] <>
    Persist.background_jobs
      (Persist.load_data
         (Persist.save_data
            (Persist.mkState [] [] [] [] [PersistDemo.tuple_job] []) PersistDemo.no_files)
         PersistDemo.empty_state).
Proof.
  split; [vm_compute; reflexivity|].
  vm_compute. intros H. discriminate H.
Qed.

(** Claim C9 (amended): for every in-memory state built from JSON-native
    values (no tuples; dicts keyed by strings), [save_data] followed by
    [load_data], from any files and into any in-memory state, reproduces the
    job list exactly (same jobs, same order, same fields), and the other
    collections as well. *)
Theorem save_load_round_trip (st st0 : Persist.state) (files : Persist.fs) :
  PersistFacts.state_native st = true ->
  Persist.load_data (Persist.save_data st files) st0 = st /\
  Persist.background_jobs (Persist.load_data (Persist.save_data st files) st0) =
    Persist.background_jobs st.
Proof.
  intros Hn.
  assert (E : Persist.load_data (Persist.save_data st files) st0 = st).
  { unfold PersistFacts.state_native in Hn.
    apply andb_prop in Hn as [Hn N6]. apply andb_prop in Hn as [Hn N5].
    apply andb_prop in Hn as [Hn N4]. apply andb_prop in Hn as [Hn N3].
    apply andb_prop in Hn as [N1 N2].
    destruct (PersistFacts.save_data_files st files) as (F1 & F2 & F3 & F4 & F5 & F6).
    unfold Persist.load_data, Persist.load_dict, Persist.load_list.
    rewrite F1, F2, F3, F4, F5, F6.
    rewrite (PersistFacts.decode_encode _ N1), (PersistFacts.decode_encode _ N2),
      (PersistFacts.decode_encode _ N3), (PersistFacts.decode_encode _ N4),
      (PersistFacts.decode_encode _ N5), (PersistFacts.decode_encode _ N6).
    destruct st; reflexivity. }
  split; [exact E|]. rewrite E. reflexivity.
Qed.

Lemma save_load_round_trip_witness :
  PersistFacts.state_native PersistDemo.demo_state = true /\
  Persist.load_data (Persist.save_data PersistDemo.demo_state PersistDemo.no_files)
    PersistDemo.empty_state = PersistDemo.demo_state /\
  Persist.background_jobs
    (Persist.load_data (Persist.save_data PersistDemo.demo_state PersistDemo.no_files)
       PersistDemo.empty_state) = [PersistDemo.list_job].
Proof.
  split; [vm_compute; reflexivity|].
  apply (save_load_round_trip PersistDemo.demo_state PersistDemo.empty_state
           PersistDemo.no_files).
  vm_compute. reflexivity.
Defined.

(** * Further code: queries, lifecycle and scheduler invariants *)

Module Queries.

(** [get_user_active_jobs(user_id)] (src/bot.py). *)
Definition get_user_active_jobs (u : string) (jobs : list job) : list job :=
  filter (fun j => String.eqb (user_id j) u && negb (stopped j)) jobs.

(** [get_all_active_jobs()] (src/bot.py). *)
Definition get_all_active_jobs (jobs : list job) : list job :=
  filter (fun j => negb (stopped j)) jobs.

End Queries.

Module LifecycleFacts.

Lemma update_first_spec (p : job -> bool) (f : job -> job) (jobs : list job) :
  Forall2 (fun j j' => j' = j \/ (p j = true /\ j' = f j)) jobs
    (snd (Lifecycle.update_first p f jobs)) /\
  (fst (Lifecycle.update_first p f jobs) = false ->
   snd (Lifecycle.update_first p f jobs) = jobs).
Proof.
  induction jobs as [|j rest [IH1 IH2]]; simpl; [split; [constructor|reflexivity]|].
  destruct (p j) eqn:Ep.
  - split; [|discriminate]. simpl. constructor; [right; split; [exact Ep|reflexivity]|].
    clear IH1 IH2. induction rest as [|x rest IHr]; constructor; [left; reflexivity|exact IHr].
  - destruct (Lifecycle.update_first p f rest) as [found rest'] eqn:E. simpl in *.
    split; [constructor; [left; reflexivity|exact IH1]|].
    intros H. rewrite (IH2 H). reflexivity.
Qed.

Lemma Forall2_in_impl {A : Type} (R R' : A -> A -> Prop) (l l' : list A) :
  Forall2 R l l' -> (forall x y, In x l -> R x y -> R' x y) -> Forall2 R' l l'.
Proof.
  intros H. induction H as [|x y l l' Hxy Hl IH]; intros Himp; constructor.
  - apply Himp; [left; reflexivity|exact Hxy].
  - apply IH. intros a b Ha. apply Himp. right. exact Ha.
Qed.

Lemma NoDup_map_eq {A B : Type} (f : A -> B) (l : list A) (x y : A) :
  NoDup (map f l) -> In x l -> In y l -> f x = f y -> x = y.
Proof.
  induction l as [|a l IH]; simpl; intros Hn Hx Hy Hf; [contradiction|].
  inversion Hn as [|b l' Hnot Hn']; subst.
  destruct Hx as [<-|Hx]; destruct Hy as [<-|Hy]; auto.
  - exfalso. apply Hnot. rewrite Hf. apply in_map. exact Hy.
  - exfalso. apply Hnot. rewrite <- Hf. apply in_map. exact Hx.
Qed.

Lemma bulk_loop_stopped_unselected (g u ts : string) (jobs : list job) (c : nat) :
  forall j, In j (fst (Lifecycle.bulk_loop (Lifecycle.in_group g u) (Lifecycle.stop_one ts) jobs c)) ->
  Lifecycle.in_group g u j = false.
Proof.
  rewrite BulkFacts.bulk_loop_eq. simpl. intros j Hj.
  apply in_map_iff in Hj. destruct Hj as [x [<- _]].
  destruct (Lifecycle.in_group g u x) eqn:E; [|exact E].
  unfold Lifecycle.in_group, Lifecycle.stop_one, set_stopped. simpl.
  rewrite andb_false_r. reflexivity.
Qed.

Lemma bulk_loop_none_selected (sel : job -> bool) (act : job -> job) (jobs : list job) (c : nat) :
  (forall j, In j jobs -> sel j = false) -> Lifecycle.bulk_loop sel act jobs c = (jobs, c).
Proof.
  intros H. rewrite BulkFacts.bulk_loop_eq.
  assert (E : filter sel jobs = []).
  { induction jobs as [|x rest IH]; simpl; [reflexivity|].
    rewrite (H x (or_introl eq_refl)). apply IH. intros j Hj. apply H. right. exact Hj. }
  rewrite E. simpl. rewrite Nat.add_0_r. f_equal.
  induction jobs as [|x rest IH]; simpl; [reflexivity|].
  rewrite (H x (or_introl eq_refl)). f_equal. apply IH.
  - intros j Hj. apply H. right. exact Hj.
  - simpl in E. rewrite (H x (or_introl eq_refl)) in E. exact E.
Qed.

Lemma filter_all_true {A : Type} (g : A -> bool) (l : list A) :
  (forall x, In x l -> g x = true) -> filter g l = l.
Proof.
  induction l as [|x l IH]; simpl; intros H; [reflexivity|].
  rewrite (H x (or_introl eq_refl)), IH; [reflexivity|].
  intros y Hy. apply H. right. exact Hy.
Qed.

End LifecycleFacts.

(** What one scheduler pass keeps of a job: its identity and settings, its
    order history as a prefix, its stopped flag once set, and an error count
    that never decreases. *)
Definition keeps_identity (j j' : job) : Prop :=
  job_id j' = job_id j /\ user_id j' = user_id j /\ api_url j' = api_url j /\
  api_key j' = api_key j /\ service_id j' = service_id j /\ link j' = link j /\
  increase_range j' = increase_range j /\ frequency j' = frequency j /\
  bulk_group_id j' = bulk_group_id j /\ paused j' = paused j /\
  (exists added, orders j' = orders j ++ added) /\
  (stopped j = true -> stopped j' = true) /\ (error_count j <= error_count j')%Z.

Module SchedulerFacts.

Lemma keeps_identity_refl (j : job) : keeps_identity j j.
Proof.
  unfold keeps_identity. repeat split; auto; try lia. exists []. rewrite app_nil_r. reflexivity.
Qed.

Lemma keeps_identity_trans (j1 j2 j3 : job) :
  keeps_identity j1 j2 -> keeps_identity j2 j3 -> keeps_identity j1 j3.
Proof.
  unfold keeps_identity.
  intros (A1 & B1 & C1 & D1 & E1 & F1 & G1 & H1 & I1 & J1 & [a1 K1] & L1 & M1)
         (A2 & B2 & C2 & D2 & E2 & F2 & G2 & H2 & I2 & J2 & [a2 K2] & L2 & M2).
  repeat split; try congruence; try lia; auto.
  exists (a1 ++ a2). rewrite K2, K1, app_assoc. reflexivity.
Qed.

Lemma on_job_error_keeps (j : job) (msg : string) : keeps_identity j (on_job_error j msg).
Proof.
  unfold on_job_error, keeps_identity.
  destruct (5 <? error_count (set_error_count (error_count j + 1) j)); simpl;
    repeat split; auto; try lia; exists []; rewrite app_nil_r; reflexivity.
Qed.

Lemma process_job_keeps (env : tick_env) (users : list string) (j : job) :
  keeps_identity j (process_job env users j).
Proof.
  unfold process_job. destruct (stopped j) eqn:Es; [apply keeps_identity_refl|].
  destruct (process_job_body env users j) as [j'|[j' msg]] eqn:Eb;
    [|eapply keeps_identity_trans; [|apply on_job_error_keeps]];
    unfold process_job_body in Eb;
    repeat match type of Eb with
           | context [if ?c then _ else _] => destruct c
           | context [match ?m with Some _ => _ | None => _ end] => destruct m
           end;
    try (injection Eb as <-); try (injection Eb as <- _); try discriminate;
    try apply keeps_identity_refl;
    unfold keeps_identity; simpl; repeat split; auto; try lia;
    eexists; reflexivity.
Qed.

Lemma tick_keeps (env : tick_env) (users : list string) (jobs : list job) :
  Forall2 keeps_identity jobs (tick env users jobs).
Proof.
  induction jobs as [|j rest IH]; simpl; constructor; [apply process_job_keeps|exact IH].
Qed.

Lemma Forall2_keeps_trans (l1 l2 l3 : list job) :
  Forall2 keeps_identity l1 l2 -> Forall2 keeps_identity l2 l3 ->
  Forall2 keeps_identity l1 l3.
Proof.
  intros H. revert l3. induction H as [|a b l1 l2 Hab Hl IH]; intros l3 H2;
    inversion H2; subst; constructor; [eapply keeps_identity_trans; eauto|apply IH; assumption].
Qed.

End SchedulerFacts.

Module QueryDemo.
Local Open Scope string_scope.
Definition job2 : job :=
  Create.new_job "job_2" "bob" "https://panel.example/api/v2" "key2" "102"
    "https://example.com/b" 50 (fl 10) (fl 20) 5 Demo.t0 "2023-11-14 22:13:20" None.
Definition jobs12 : list job := [Demo.job1; job2].
End QueryDemo.

(** [get_user_active_jobs(u)] is [get_all_active_jobs()] restricted to the
    jobs of [u], in the same order: exactly the jobs of [u] that are not
    stopped. *)
Theorem get_user_active_jobs_spec (u : string) (jobs : list job) :
  Queries.get_user_active_jobs u jobs =
    filter (fun j => String.eqb (user_id j) u) (Queries.get_all_active_jobs jobs) /\
  (forall j, In j (Queries.get_user_active_jobs u jobs) <->
             In j jobs /\ user_id j = u /\ stopped j = false).
Proof.
  split.
  - unfold Queries.get_user_active_jobs, Queries.get_all_active_jobs.
    induction jobs as [|j rest IH]; simpl; [reflexivity|].
    destruct (stopped j); simpl; rewrite ?andb_false_r, ?andb_true_r;
      destruct (String.eqb (user_id j) u); simpl; rewrite IH; reflexivity.
  - intros j. unfold Queries.get_user_active_jobs. rewrite filter_In.
    rewrite andb_true_iff, String.eqb_eq, negb_true_iff. tauto.
Qed.

(** With distinct job ids, [stop_job(job_id)] removes exactly that job from
    [get_all_active_jobs()] and leaves the other active jobs in order. *)
Theorem stop_job_removes_from_active (ts id : string) (by' : option string)
    (jobs : list job) :
  NoDup (map job_id jobs) ->
  Queries.get_all_active_jobs (snd (Lifecycle.stop_job ts id by' jobs)) =
    filter (fun j => negb (String.eqb (job_id j) id)) (Queries.get_all_active_jobs jobs).
Proof.
  unfold Queries.get_all_active_jobs, Lifecycle.stop_job.
  induction jobs as [|j rest IH]; intros Hn; simpl; [reflexivity|].
  inversion Hn as [|x l Hnot Hn']; subst.
  destruct (String.eqb (job_id j) id) eqn:Ei.
  - simpl. unfold set_stopped. simpl.
    assert (Hr : forall k, In k (filter (fun j => negb (stopped j)) rest) ->
                           negb (String.eqb (job_id k) id) = true).
    { intros k Hk. apply filter_In in Hk. destruct Hk as [Hk _].
      apply negb_true_iff, String.eqb_neq. intros Hk'. apply Hnot.
      apply String.eqb_eq in Ei. rewrite Ei, <- Hk'. apply in_map. exact Hk. }
    destruct (stopped j); simpl; rewrite ?Ei; simpl;
      symmetry; exact (LifecycleFacts.filter_all_true
                         (fun k : job => negb (String.eqb (job_id k) id)) _ Hr).
  - destruct (Lifecycle.update_first _ _ rest) as [found rest'] eqn:E. simpl in *.
    destruct (stopped j); simpl; rewrite ?Ei; simpl; rewrite (IH Hn'); reflexivity.
Qed.

Lemma stop_job_removes_from_active_witness :
  NoDup (map job_id QueryDemo.jobs12) /\
  Queries.get_all_active_jobs (snd (Lifecycle.stop_job "ts"%string "job_1"%string None
                                      QueryDemo.jobs12)) =
    filter (fun j => negb (String.eqb (job_id j) "job_1"%string))
      (Queries.get_all_active_jobs QueryDemo.jobs12).
Proof.
  assert (H : NoDup (map job_id QueryDemo.jobs12)).
  { simpl. constructor; [simpl; intros [H|H]; [discriminate|contradiction]|].
    constructor; [simpl; tauto|constructor]. }
  split; [exact H|].
  apply (stop_job_removes_from_active "ts"%string "job_1"%string None QueryDemo.jobs12 H).
Defined.

(** With distinct job ids, the [/stop_job/<job_id>] route, used by a user
    other than the admin, changes only jobs of that user: every other job
    comes back unchanged. *)
Theorem stop_job_route_only_own_jobs (ts id u : string) (jobs : list job) :
  u <> Lifecycle.ADMIN_USERNAME -> NoDup (map job_id jobs) ->
  Forall2 (fun j j' => j' = j \/ user_id j = u) jobs
    (snd (Lifecycle.stop_job_route ts id u jobs)).
Proof.
  intros Hu Hn. unfold Lifecycle.stop_job_route.
  destruct (existsb _ jobs) eqn:Ee.
  - apply existsb_exists in Ee. destruct Ee as [k [Hk Hkp]].
    apply andb_true_iff in Hkp. destruct Hkp as [Hki Hko].
    apply String.eqb_eq in Hki.
    assert (Hku : user_id k = u).
    { apply orb_true_iff in Hko. destruct Hko as [H|H]; apply String.eqb_eq in H;
        [exact H|contradiction]. }
    simpl. unfold Lifecycle.stop_job.
    destruct (LifecycleFacts.update_first_spec (fun j => String.eqb (job_id j) id)
      (fun j => set_stopped (Some ts)
                  (if Lifecycle.truthy (Some u) then Some u else stopped_by j)
                  (stopped_reason j) j) jobs) as [H _].
    eapply LifecycleFacts.Forall2_in_impl; [exact H|].
    intros x y Hx [Hxy|[Hp _]]; [left; exact Hxy|right].
    apply String.eqb_eq in Hp.
    rewrite (LifecycleFacts.NoDup_map_eq job_id jobs x k Hn Hx Hk); [exact Hku|congruence].
  - simpl. clear. induction jobs as [|j rest IH]; constructor; [left; reflexivity|exact IH].
Qed.

Lemma stop_job_route_only_own_jobs_witness :
  "alice"%string <> Lifecycle.ADMIN_USERNAME /\ NoDup (map job_id QueryDemo.jobs12) /\
  Forall2 (fun j j' => j' = j \/ user_id j = "alice"%string) QueryDemo.jobs12
    (snd (Lifecycle.stop_job_route "ts"%string "job_1"%string "alice"%string QueryDemo.jobs12)).
Proof.
  assert (Ha : "alice"%string <> Lifecycle.ADMIN_USERNAME) by discriminate.
  assert (H : NoDup (map job_id QueryDemo.jobs12)).
  { simpl. constructor; [simpl; intros [H|H]; [discriminate|contradiction]|].
    constructor; [simpl; tauto|constructor]. }
  split; [exact Ha|]. split; [exact H|].
  apply (stop_job_route_only_own_jobs "ts"%string "job_1"%string "alice"%string
           QueryDemo.jobs12 Ha H).
Defined.


(** After [stop_bulk_jobs(g, u)], a second bulk pause, resume or stop of the
    same group and user finds no job: it returns 0 and changes nothing. *)
Theorem bulk_ops_after_bulk_stop (ts ts' : string) (now' : Z) (g u : string)
    (jobs : list job) :
  Lifecycle.pause_bulk_jobs ts' g u (fst (Lifecycle.stop_bulk_jobs ts g u jobs)) =
    (fst (Lifecycle.stop_bulk_jobs ts g u jobs), 0%nat) /\
  Lifecycle.resume_bulk_jobs ts' now' g u (fst (Lifecycle.stop_bulk_jobs ts g u jobs)) =
    (fst (Lifecycle.stop_bulk_jobs ts g u jobs), 0%nat) /\
  Lifecycle.stop_bulk_jobs ts' g u (fst (Lifecycle.stop_bulk_jobs ts g u jobs)) =
    (fst (Lifecycle.stop_bulk_jobs ts g u jobs), 0%nat).
Proof.
  pose proof (LifecycleFacts.bulk_loop_stopped_unselected g u ts jobs 0) as H.
  unfold Lifecycle.pause_bulk_jobs, Lifecycle.resume_bulk_jobs, Lifecycle.stop_bulk_jobs.
  split; [|split]; apply LifecycleFacts.bulk_loop_none_selected; exact H.
Qed.

(** Over any number of passes of [process_automation_jobs], every job keeps
    its place, id, owner, panel, key, service, link, growth range, frequency,
    bulk group and paused flag; its order history only grows at the end; a
    stopped job stays stopped; and its error count never decreases. *)
Theorem run_ticks_keeps_identity (envs : list tick_env) (users : list string)
    (jobs : list job) :
  Forall2 keeps_identity jobs (run_ticks envs users jobs).
Proof.
  revert jobs. induction envs as [|env envs IH]; intros jobs; simpl.
  - induction jobs as [|j rest IHj]; constructor;
      [apply SchedulerFacts.keeps_identity_refl|exact IHj].
  - eapply SchedulerFacts.Forall2_keeps_trans; [apply SchedulerFacts.tick_keeps|apply IH].
Qed.




(** ** Job creation: further properties *)

Module CreateMore.

Lemma assign_ids_length (new_id : nat -> string) (k : nat) (mk : list (string -> job)) :
  length (Create.assign_ids new_id k mk) = length mk.
Proof.
  revert k. induction mk as [|g rest IH]; intros k; simpl; [reflexivity|]. rewrite IH. reflexivity.
Qed.

Lemma flat_map_map_length {A B C : Type} (g : A -> B -> C) (xs : list A) (ys : list B) :
  length (flat_map (fun x => map (g x) ys) xs) = (length xs * length ys)%nat.
Proof.
  induction xs as [|x xs IH]; simpl; [reflexivity|].
  rewrite length_app, length_map, IH. reflexivity.
Qed.

Lemma created_inj (a b : list job) : Create.Setup_created a = Create.Setup_created b -> a = b.
Proof. congruence. Qed.

Lemma clamp_frequency_ge (x : Z) : (5 <= Create.clamp_frequency x)%Z.
Proof. unfold Create.clamp_frequency. destruct (Z.ltb_spec x 5); lia. Qed.

(** The fields every creation path of [setup_automation] writes. *)
Definition fresh_job (user : string) (now' : Z) (url key : string) (j : job) : Prop :=
  user_id j = user /\ (5 <= frequency j)%Z /\ next_run j = now' /\ stopped j = false /\
  paused j = false /\ orders j = [] /\ error_count j = 0%Z /\
  api_url j = url /\ api_key j = key.

End CreateMore.

(** Every job [setup_automation] creates belongs to the requesting user,
    runs at least every 5 minutes (the frequency is raised to 5, also for
    each individual configuration), is due at once ([next_run] is the
    creation time), is neither stopped nor paused, has no order and no error
    yet, and uses the panel URL and key of the form. *)
Theorem setup_automation_new_jobs (uuid : string) (new_id : nat -> string) (now' : Z)
    (ts user : string) (f : Create.setup_form) (jobs : list job) :
  Create.setup_automation uuid new_id now' ts user f = Create.Setup_created jobs ->
  forall j, In j jobs -> CreateMore.fresh_job user now' (Create.f_api_url f) (Create.f_api_key f) j.
Proof.
  intros H. unfold Create.setup_automation in H.
  assert (Hmk : forall (mk : list (string -> job)),
            (forall g, In g mk -> exists sid lnk q mn mx fr grp,
               (5 <= fr)%Z /\
               forall id, g id = Create.new_job id user (Create.f_api_url f) (Create.f_api_key f)
                                   sid lnk q mn mx fr now' ts grp) ->
            forall j, In j (Create.assign_ids new_id 0 mk) ->
            CreateMore.fresh_job user now' (Create.f_api_url f) (Create.f_api_key f) j).
  { intros mk Hg. apply CreateFacts.assign_ids_forall. intros g id Hin.
    destruct (Hg g Hin) as (sid & lnk & q & mn & mx & fr & grp & Hfr & Heq).
    rewrite Heq. unfold CreateMore.fresh_job, Create.new_job. simpl.
    repeat split; auto. }
  assert (Hfm : forall {A B : Type} (F : A -> B -> string -> job) xs ys,
            (forall x y, exists sid lnk q mn mx fr grp, (5 <= fr)%Z /\
               forall id, F x y id = Create.new_job id user (Create.f_api_url f)
                 (Create.f_api_key f) sid lnk q mn mx fr now' ts grp) ->
            forall j, In j (Create.assign_ids new_id 0
                              (flat_map (fun x => map (F x) ys) xs)) ->
            CreateMore.fresh_job user now' (Create.f_api_url f) (Create.f_api_key f) j).
  { intros A B F xs ys HF. apply Hmk. intros g Hg.
    apply in_flat_map in Hg. destruct Hg as [x [_ Hg]].
    apply in_map_iff in Hg. destruct Hg as [y [<- _]]. apply HF. }
  destruct (Create.f_bulk_mode f) eqn:Eb; destruct (Create.f_individual_settings f) eqn:Ei;
    cbv beta iota zeta delta [andb] in H.
  - destruct (length (Create.f_bulk_links f) =? 0)%nat; [discriminate|].
    destruct (10 <? length (Create.f_bulk_links f))%nat; [discriminate|].
    destruct (Create.f_service_configs f) as [|c cs]; [discriminate|].
    apply CreateMore.created_inj in H. subst jobs. apply Hfm.
    intros x y. do 7 eexists. split; [apply CreateMore.clamp_frequency_ge|intros id; reflexivity].
  - destruct (length (Create.f_bulk_links f) =? 0)%nat; [discriminate|].
    destruct (10 <? length (Create.f_bulk_links f))%nat; [discriminate|].
    apply CreateMore.created_inj in H. subst jobs. apply Hfm.
    intros x y. do 7 eexists. split; [apply CreateMore.clamp_frequency_ge|intros id; reflexivity].
  - apply CreateMore.created_inj in H. subst jobs. apply Hfm.
    intros x y. do 7 eexists. split; [apply CreateMore.clamp_frequency_ge|intros id; reflexivity].
  - apply CreateMore.created_inj in H. subst jobs. apply Hfm.
    intros x y. do 7 eexists. split; [apply CreateMore.clamp_frequency_ge|intros id; reflexivity].
Qed.

Lemma setup_automation_new_jobs_witness :
  (exists jobs, Create.setup_automation "u1"%string demo_ids Demo.t0 "ts"%string "alice"%string
                  bulk_form = Create.Setup_created jobs /\
                forall j, In j jobs -> CreateMore.fresh_job "alice"%string Demo.t0
                  (Create.f_api_url bulk_form) (Create.f_api_key bulk_form) j).
Proof.
  eexists. split; [reflexivity|].
  apply (setup_automation_new_jobs "u1"%string demo_ids Demo.t0 "ts"%string "alice"%string
           bulk_form). reflexivity.
Defined.

(** Outside the individual-settings mode, [setup_automation] rejects a
    bulk request with no link or with more than 10 links, and otherwise
    creates one job per link and per service id (the main one and each bulk
    service id): [len(links) * (1 + len(bulk_service_ids))] jobs. *)
Theorem setup_automation_job_count (uuid : string) (new_id : nat -> string) (now' : Z)
    (ts user : string) (f : Create.setup_form) :
  (Create.f_individual_settings f && Create.f_bulk_mode f)%bool = false ->
  (Create.f_bulk_mode f = true ->
   (length (Create.f_bulk_links f) = 0 \/ 10 < length (Create.f_bulk_links f))%nat ->
   exists msg, Create.setup_automation uuid new_id now' ts user f = Create.Setup_error msg) /\
  (forall jobs, Create.setup_automation uuid new_id now' ts user f = Create.Setup_created jobs ->
   length jobs = ((if Create.f_bulk_mode f then length (Create.f_bulk_links f) else 1) *
                  S (length (Create.f_bulk_service_ids f)))%nat).
Proof.
  intros Hi. unfold Create.setup_automation. rewrite Hi.
  destruct (Create.f_bulk_mode f) eqn:Eb; cbv beta iota zeta delta [andb].
  - split.
    + intros _ [H|H].
      * rewrite H. simpl. eexists. reflexivity.
      * destruct (Nat.eqb_spec (length (Create.f_bulk_links f)) 0); [eexists; reflexivity|].
        apply Nat.ltb_lt in H. rewrite H. eexists. reflexivity.
    + intros jobs. destruct (length (Create.f_bulk_links f) =? 0)%nat; [discriminate|].
      destruct (10 <? length (Create.f_bulk_links f))%nat; [discriminate|].
      intros H. apply CreateMore.created_inj in H. subst jobs.
      rewrite CreateMore.assign_ids_length, CreateMore.flat_map_map_length. reflexivity.
  - split; [discriminate|].
    intros jobs H. apply CreateMore.created_inj in H. subst jobs.
    rewrite CreateMore.assign_ids_length, CreateMore.flat_map_map_length. reflexivity.
Qed.

Lemma setup_automation_job_count_witness :
  (Create.f_individual_settings bulk_form && Create.f_bulk_mode bulk_form)%bool = false /\
  (forall jobs, Create.setup_automation "u1"%string demo_ids Demo.t0 "ts"%string "alice"%string
                  bulk_form = Create.Setup_created jobs -> length jobs = 2%nat).
Proof.
  split; [reflexivity|].
  exact (proj2 (setup_automation_job_count "u1"%string demo_ids Demo.t0 "ts"%string
                  "alice"%string bulk_form eq_refl)).
Defined.

(** When one of the four lists of the [/newjob] conversation is empty,
    [create_jobs_from_telegram] creates no job: with a non-zero job count it
    hits an [IndexError] and returns 0 without appending anything ([None]);
    when the URL, link and service id lists are all empty the count is 0 and
    the loop does not run. *)
Theorem create_jobs_from_telegram_empty_list (uuid : nat -> string) (now' : Z)
    (ts user : string) (d : Create.tg_job_data) :
  (Create.api_urls d = [] \/ Create.api_keys d = [] \/ Create.target_links d = [] \/
   Create.service_ids d = []) ->
  Create.create_jobs_from_telegram uuid now' ts user d =
    if (Create.tg_max_jobs d =? 0)%nat then Some [] else None.
Proof.
  intros H. unfold Create.create_jobs_from_telegram.
  destruct (Create.tg_max_jobs d) as [|n]; [reflexivity|].
  simpl. unfold Create.pick.
  destruct H as [H|[H|[H|H]]]; rewrite H; simpl;
    destruct (Create.api_urls d); destruct (Create.api_keys d);
    destruct (Create.service_ids d); destruct (Create.target_links d);
    reflexivity.
Qed.

Definition tg_demo_nokeys : Create.tg_job_data :=
  Create.mkTgJobData ["https://panel.example/api/v2"%string] [] ["https://example.com/a"%string]
    ["101"%string] 50 (fl 5) (fl 5) 10.

Lemma create_jobs_from_telegram_empty_list_witness :
  Create.api_keys tg_demo_nokeys = [] /\
  Create.create_jobs_from_telegram demo_ids Demo.t0 "ts"%string "alice"%string tg_demo_nokeys = None.
Proof.
  split; [reflexivity|].
  exact (create_jobs_from_telegram_empty_list demo_ids Demo.t0 "ts"%string "alice"%string
           tg_demo_nokeys (or_intror (or_introl eq_refl))).
Defined.

(** ** The panel API: [connect_smm_panel], [place_order],
    [validate_api_connection] (src/bot.py) *)

Module Panel.

Import Persist.
Local Open Scope string_scope.

(** What [requests.post] does: raise [Timeout], raise [ConnectionError],
    raise another exception (with its text), or answer with a status code and
    a body that [response.json()] either parses or rejects (with the text of
    the exception). *)
Inductive http_result :=
| Http_timeout
| Http_connection_error
| Http_exception (msg : string)
| Http_response (status_code : Z) (body : string + json).

(** [str(n)] for a Python int. *)
Definition str_int (n : Z) : string := NilZero.string_of_int (Z.to_int n).

Definition error_dict (msg : string) : json := JObj [("error", JStr msg)].

(** [k in r] for the value [response.json()] returned: key membership for a
    dict, element equality for a list, substring for a str; for [None], a
    bool or a number Python raises [TypeError] ([None] here). *)
Definition py_in (k : string) (r : json) : option bool :=
  match r with
  | JObj members => Some (existsb (fun kv => String.eqb (fst kv) k) members)
  | JArr l => Some (existsb (fun v => match v with JStr s => String.eqb s k | _ => false end) l)
  | JStr s => Some (match String.index 0 k s with Some _ => true | None => false end)
  | _ => None
  end.

(** [type(r).__name__]. *)
Definition type_name (r : json) : string :=
  match r with
  | JNull => "NoneType"
  | JBool _ => "bool"
  | JInt _ => "int"
  | JFloat _ => "float"
  | JStr _ => "str"
  | JArr _ => "list"
  | JObj _ => "dict"
  end.

(** [connect_smm_panel(api_url, api_key, action, params)]; [post url payload]
    is the outcome of [requests.post].  The logging of the redacted payload
    is left out: it only writes to the log. *)
Definition connect_smm_panel (post : string -> list (string * pyval) -> http_result)
    (api_url api_key action : string) (params : list (string * pyval)) : json :=
  let payload := fold_left (fun d kv => dict_set d (fst kv) (snd kv)) params
                   [("key", PStr api_key); ("action", PStr action); ("format", PStr "json")] in
  match post api_url payload with
  | Http_timeout => error_dict "Connection timed out"
  | Http_connection_error => error_dict "Connection error"
  | Http_exception msg => error_dict msg
  | Http_response code body =>
      if negb (code =? 200)%Z then error_dict ("HTTP Error: " ++ str_int code)
      else match body with
           | inl msg => error_dict ("Invalid JSON response: " ++ msg)
           | inr result => result
           end
  end.

(** The order counters of [bot_statistics] that [place_order] updates
    ([total_spent], a float sum no counter depends on, is left out). *)
Record order_stats := mkStats {
  total_orders : Z;
  successful_orders : Z;
  failed_orders : Z;
  last_24h_orders : Z
}.

(** [place_order]: the reply it returns (the timestamp it pairs it with is
    left out) and the counters after the call.  The counters are bumped
    before the [in] test and the indexing that can raise; an exception is
    caught by the outer [except], which returns an ["Internal error"] dict. *)
Definition place_order (post : string -> list (string * pyval) -> http_result)
    (st : order_stats) (api_url api_key service_id link : string) (quantity : Z)
    : json * order_stats :=
  let new_order := connect_smm_panel post api_url api_key "add"
                     [("service", PStr service_id); ("link", PStr link); ("quantity", PInt quantity)] in
  let internal msg := error_dict ("Internal error: " ++ msg) in
  let st1 := mkStats (total_orders st + 1) (successful_orders st) (failed_orders st)
                     (last_24h_orders st + 1) in
  match py_in "order" new_order with
  | None => (internal ("argument of type '" ++ type_name new_order ++ "' is not iterable"), st1)
  | Some true =>
      let st2 := mkStats (total_orders st1) (successful_orders st1 + 1) (failed_orders st1)
                         (last_24h_orders st1) in
      match new_order with
      | JObj _ => (new_order, st2)
      | JArr _ => (internal "list indices must be integers or slices, not str", st2)
      | _ => (internal "string indices must be integers, not 'str'", st2)
      end
  | Some false =>
      let st2 := mkStats (total_orders st1) (successful_orders st1) (failed_orders st1 + 1)
                         (last_24h_orders st1) in
      match new_order with
      | JObj _ => (new_order, st2)
      | _ => (internal ("'" ++ type_name new_order ++ "' object has no attribute 'get'"), st2)
      end
  end.

(** [validate_api_connection]: a [TypeError] of the [in] test is caught and
    gives [False]. *)
Definition validate_api_connection (post : string -> list (string * pyval) -> http_result)
    (api_url api_key : string) : bool :=
  match py_in "error" (connect_smm_panel post api_url api_key "balance" []) with
  | Some b => negb b
  | None => false
  end.

(** The form fields of the balance request. *)
Definition balance_payload (api_key : string) : list (string * pyval) :=
  [("key", PStr api_key); ("action", PStr "balance"); ("format", PStr "json")].

End Panel.

(** [validate_api_connection] accepts a panel exactly when the balance
    request (sent with the key, [action=balance] and [format=json]) got an
    HTTP 200 answer whose JSON body is a dict, list or string without
    ["error"] in it: a timeout, a connection error, any other exception, a
    non-200 status, a body that is not JSON, and a JSON null, bool or number
    all make it fail. *)
Theorem validate_api_connection_spec post (api_url api_key : string) :
  Panel.validate_api_connection post api_url api_key = true <->
  exists body, post api_url (Panel.balance_payload api_key) = Panel.Http_response 200 (inr body) /\
               Panel.py_in "error" body = Some false.
Proof.
  unfold Panel.validate_api_connection, Panel.connect_smm_panel. simpl fold_left.
  change [("key"%string, Persist.PStr api_key); ("action"%string, Persist.PStr "balance");
          ("format"%string, Persist.PStr "json")] with (Panel.balance_payload api_key).
  destruct (post api_url (Panel.balance_payload api_key)) as [| |msg|code body]; simpl;
    try (split; [discriminate|intros (b & Hb & _); discriminate Hb]).
  destruct (Z.eqb_spec code 200) as [->|Hc]; simpl.
  - destruct body as [msg|body]; simpl.
    + split; [discriminate|intros (b & Hb & _); discriminate Hb].
    + split.
      * intros H. exists body. split; [reflexivity|].
        destruct (Panel.py_in "error" body) as [[]|]; simpl in H; congruence.
      * intros (b & Hb & Hin). injection Hb as <-. rewrite Hin. reflexivity.
  - split; [discriminate|intros (b & Hb & _); injection Hb as Hc' _; contradiction].
Qed.

Lemma validate_api_connection_spec_witness :
  Panel.validate_api_connection
    (fun _ _ => Panel.Http_response 200 (inr (Persist.JObj [("balance"%string, Persist.JStr "12.5")])))
    "https://panel.example/api/v2" "key1" = true.
Proof.
  apply (proj2 (validate_api_connection_spec
    (fun _ _ => Panel.Http_response 200 (inr (Persist.JObj [("balance"%string, Persist.JStr "12.5")])))
    "https://panel.example/api/v2" "key1")).
  eexists. split; reflexivity.
Defined.

(** Every [place_order] call adds one to [total_orders] and to
    [last_24h_orders].  When the panel's reply is a dict, list or string, it
    also adds one to exactly one of [successful_orders] and
    [failed_orders]; when the reply is a JSON null, bool or number (an HTTP
    200 answer), the [in] test raises after the two increments and neither
    counter moves, so [total_orders] then exceeds
    [successful_orders + failed_orders]. *)
Theorem place_order_counters post (st : Panel.order_stats)
    (api_url api_key service_id link : string) (quantity : Z) :
  let reply := Panel.connect_smm_panel post api_url api_key "add"
                 [("service"%string, Persist.PStr service_id); ("link"%string, Persist.PStr link);
                  ("quantity"%string, Persist.PInt quantity)] in
  let st' := snd (Panel.place_order post st api_url api_key service_id link quantity) in
  Panel.total_orders st' = Panel.total_orders st + 1 /\
  Panel.last_24h_orders st' = Panel.last_24h_orders st + 1 /\
  (Panel.py_in "order" reply <> None ->
     Panel.successful_orders st' + Panel.failed_orders st' =
     Panel.successful_orders st + Panel.failed_orders st + 1) /\
  (Panel.py_in "order" reply = None ->
     Panel.successful_orders st' = Panel.successful_orders st /\
     Panel.failed_orders st' = Panel.failed_orders st).
Proof.
  intros reply st'. subst st'. unfold Panel.place_order. fold reply.
  destruct (Panel.py_in "order" reply) as [[]|] eqn:E.
  - destruct reply; simpl; repeat (split || intro); try lia; congruence.
  - destruct reply; simpl; repeat (split || intro); try lia; congruence.
  - simpl. repeat (split || intro); try lia; congruence.
Qed.

(** ** Accounts: activation keys, [register], [activate_user],
    [admin_revoke_key], [admin_deactivate_user] (src/app.py) *)

(** Dicts with string keys as item lists in insertion order, keys distinct. *)
Module Dict.

Section Ops.
Context {V : Type}.

(** [d.get(k)]. *)
Fixpoint dget (d : list (string * V)) (k : string) : option V :=
  match d with
  | [] => None
  | (k', v) :: rest => if String.eqb k' k then Some v else dget rest k
  end.

(** [k in d]. *)
Definition dmem (d : list (string * V)) (k : string) : bool :=
  match dget d k with Some _ => true | None => false end.

(** [d[k] = v]: replace in place, or append. *)
Fixpoint dset (d : list (string * V)) (k : string) (v : V) : list (string * V) :=
  match d with
  | [] => [(k, v)]
  | (k', v') :: rest => if String.eqb k' k then (k', v) :: rest else (k', v') :: dset rest k v
  end.

(** Mutating the value at [k] in place ([d[k][...] = ...]); nothing when
    [k] is absent. *)
Fixpoint dupdate (d : list (string * V)) (k : string) (f : V -> V) : list (string * V) :=
  match d with
  | [] => []
  | (k', v) :: rest => if String.eqb k' k then (k', f v) :: rest else (k', v) :: dupdate rest k f
  end.

(** [del d[k]]. *)
Fixpoint ddel (d : list (string * V)) (k : string) : list (string * V) :=
  match d with
  | [] => []
  | (k', v) :: rest => if String.eqb k' k then rest else (k', v) :: ddel rest k
  end.

End Ops.

(** [l.remove(x)] on a list of str: drop the first occurrence. *)
Fixpoint list_remove (x : string) (l : list string) : list string :=
  match l with
  | [] => []
  | y :: rest => if String.eqb y x then rest else y :: list_remove x rest
  end.

Definition str_mem (x : string) (l : list string) : bool := existsb (String.eqb x) l.

End Dict.

Module DictFacts.
Import Dict.

Section Facts.
Context {V : Type}.

Lemma dget_dset_same (d : list (string * V)) k v : dget (dset d k v) k = Some v.
Proof.
  induction d as [|[k' v'] rest IH]; simpl.
  - rewrite String.eqb_refl. reflexivity.
  - destruct (String.eqb_spec k' k) as [->|Hne]; simpl.
    + rewrite String.eqb_refl. reflexivity.
    + apply String.eqb_neq in Hne. rewrite Hne. exact IH.
Qed.

Lemma dget_dset_other (d : list (string * V)) k k' v :
  k' <> k -> dget (dset d k v) k' = dget d k'.
Proof.
  intros Hne. induction d as [|[k0 v0] rest IH]; simpl.
  - apply String.eqb_neq in Hne. rewrite String.eqb_sym, Hne. reflexivity.
  - destruct (String.eqb_spec k0 k) as [->|Hk]; simpl.
    + apply String.eqb_neq in Hne. rewrite String.eqb_sym, Hne. reflexivity.
    + destruct (String.eqb k0 k'); [reflexivity|exact IH].
Qed.

Lemma dget_dupdate_same (d : list (string * V)) k f :
  dget (dupdate d k f) k = option_map f (dget d k).
Proof.
  induction d as [|[k' v'] rest IH]; simpl; [reflexivity|].
  destruct (String.eqb_spec k' k) as [->|Hne]; simpl.
  - rewrite String.eqb_refl. reflexivity.
  - apply String.eqb_neq in Hne. rewrite Hne. exact IH.
Qed.

Lemma dget_dupdate_other (d : list (string * V)) k k' f :
  k' <> k -> dget (dupdate d k f) k' = dget d k'.
Proof.
  intros Hne. induction d as [|[k0 v0] rest IH]; simpl; [reflexivity|].
  destruct (String.eqb_spec k0 k) as [->|Hk]; simpl.
  - apply String.eqb_neq in Hne. rewrite String.eqb_sym, Hne. reflexivity.
  - destruct (String.eqb k0 k'); [reflexivity|exact IH].
Qed.

Lemma dget_notin (d : list (string * V)) k : ~ In k (map fst d) -> dget d k = None.
Proof.
  induction d as [|[k' v'] rest IH]; simpl; intros H; [reflexivity|].
  destruct (String.eqb_spec k' k) as [->|Hne]; [exfalso; apply H; left; reflexivity|].
  apply IH. intros Hin. apply H. right. exact Hin.
Qed.

Lemma dget_ddel_same (d : list (string * V)) k :
  NoDup (map fst d) -> dget (ddel d k) k = None.
Proof.
  induction d as [|[k' v'] rest IH]; simpl; intros Hn; [reflexivity|].
  inversion Hn as [|? ? Hnin Hn']; subst.
  destruct (String.eqb_spec k' k) as [->|Hne]; simpl.
  - apply dget_notin. exact Hnin.
  - apply String.eqb_neq in Hne. rewrite Hne. exact (IH Hn').
Qed.

Lemma dget_ddel_other (d : list (string * V)) k k' :
  k' <> k -> dget (ddel d k) k' = dget d k'.
Proof.
  intros Hne. induction d as [|[k0 v0] rest IH]; simpl; [reflexivity|].
  destruct (String.eqb_spec k0 k) as [->|Hk]; simpl.
  - apply String.eqb_neq in Hne. rewrite String.eqb_sym, Hne. reflexivity.
  - destruct (String.eqb k0 k'); [reflexivity|exact IH].
Qed.

Lemma length_dupdate (d : list (string * V)) k f : length (dupdate d k f) = length d.
Proof.
  induction d as [|[k' v'] rest IH]; simpl; [reflexivity|].
  destruct (String.eqb k' k); simpl; [reflexivity|]. rewrite IH. reflexivity.
Qed.

End Facts.

Lemma str_mem_spec (x : string) (l : list string) : str_mem x l = true <-> In x l.
Proof.
  unfold str_mem. rewrite existsb_exists. split.
  - intros (y & Hy & E). apply String.eqb_eq in E. subst. exact Hy.
  - intros H. exists x. split; [exact H|apply String.eqb_refl].
Qed.

Lemma length_list_remove (x : string) (l : list string) :
  In x l -> S (length (list_remove x l)) = length l.
Proof.
  induction l as [|y rest IH]; simpl; [contradiction|].
  intros [->|Hin].
  - rewrite String.eqb_refl. reflexivity.
  - destruct (String.eqb_spec y x); simpl; [reflexivity|]. rewrite (IH Hin). reflexivity.
Qed.

End DictFacts.

Module Accounts.

Import Dict.
Local Open Scope string_scope.

(** An entry of [activation_keys]; the fields [generate_key] writes and the
    ones [admin_revoke_key] adds ([revoked] absent reads as [False]). *)
Record key_rec := mkKey {
  k_used : bool;
  k_created_at : string;
  k_expires_at : string;
  k_used_by : option string;
  k_revoked : bool;
  k_revoked_at : option string;
  k_revoked_by : option string
}.

Record api_profile := mkProfile {
  p_api_url : option string;
  p_api_key : option string
}.

(** A template dict; [None] is an absent key (read through [t.get]). *)
Record template := mkTemplate {
  t_id : option string;
  t_api_profile : option string;
  t_service_id : option string;
  t_quantity : option Z;
  t_increase_min : option rangeval;
  t_increase_max : option rangeval;
  t_frequency : option Z;
  t_usage_count : option Z
}.

(** An entry of [user_data]: the keys the modelled functions read or write
    ([orders], [date_joined] and [theme] are not read by them and are left
    out); [None] is an absent key. *)
Record user_rec := mkUser {
  u_password : option string;
  u_api_profiles : option (list (string * api_profile));
  u_templates : option (list template);
  u_telegram_id : option string
}.

(** The parts of the shared state these functions use; [bot_statistics]
    reduced to its two user counters. *)
Record acct_state := mkAcct {
  users : list (string * user_rec);
  keys : list (string * key_rec);
  active_users : list string;
  stat_active_users : Z;
  stat_total_users : Z
}.

Definition mark_used (by' : string) (k : key_rec) : key_rec :=
  mkKey true (k_created_at k) (k_expires_at k) (Some by') (k_revoked k)
        (k_revoked_at k) (k_revoked_by k).

(** [if user not in active_users: active_users.append(user);
    bot_statistics["active_users"] = len(active_users)]. *)
Definition add_active (u : string) (s : acct_state) : acct_state :=
  if str_mem u (active_users s) then s
  else mkAcct (users s) (keys s) (active_users s ++ [u])
              (Z.of_nat (length (active_users s ++ [u]))) (stat_total_users s).

(** [activate_user(user_id, key)]; [strptime e] is the time
    [datetime.strptime(e, "%Y-%m-%d %H:%M:%S")] stands for ([None] when it
    raises, an exception the function catches), [now] is [datetime.now()]. *)
Definition activate_user (strptime : string -> option Z) (now : Z) (user key : string)
    (s : acct_state) : bool * acct_state :=
  match dget (keys s) key with
  | Some k =>
      if k_used k then (false, s)
      else match strptime (k_expires_at k) with
           | Some e =>
               if (now <? e)%Z then
                 (true, add_active user (mkAcct (users s) (dupdate (keys s) key (mark_used user))
                                          (active_users s) (stat_active_users s)
                                          (stat_total_users s)))
               else (false, s)
           | None => (false, s)
           end
  | None => (false, s)
  end.

(** [register] (POST): the flashed error, or the new state. *)
Definition register (username password confirm_password activation_key telegram_id : string)
    (s : acct_state) : string + acct_state :=
  if negb (String.eqb password confirm_password) then inl "Passwords do not match"
  else if dmem (users s) username then inl "Username already exists"
  else match dget (keys s) activation_key with
       | None => inl "Invalid or already used activation key"
       | Some k =>
           if k_used k then inl "Invalid or already used activation key"
           else
             let u := mkUser (Some password) (Some []) (Some [])
                             (if String.eqb telegram_id "" then None else Some telegram_id) in
             let s1 := add_active username
                         (mkAcct (dset (users s) username u)
                                 (dupdate (keys s) activation_key (mark_used username))
                                 (active_users s) (stat_active_users s) (stat_total_users s)) in
             inr (mkAcct (users s1) (keys s1) (active_users s1) (stat_active_users s1)
                         (Z.of_nat (length (users s1))))
       end.

(** [admin_revoke_key(key)] behind [admin_required]: the [success] flag of
    the JSON answer and the new state. *)
Definition admin_revoke_key (ts : string) (session_user : option string) (key : string)
    (s : acct_state) : bool * acct_state :=
  match session_user with
  | Some u =>
      if String.eqb u Lifecycle.ADMIN_USERNAME then
        match dget (keys s) key with
        | Some k =>
            if k_used k then (false, s)
            else (true, mkAcct (users s)
                          (dupdate (keys s) key (fun k =>
                             mkKey true (k_created_at k) (k_expires_at k) (k_used_by k) true
                                   (Some ts) (Some u)))
                          (active_users s) (stat_active_users s) (stat_total_users s))
        | None => (false, s)
        end
      else (false, s)
  | None => (false, s)
  end.

(** [admin_deactivate_user(user_id)] behind [admin_required]. *)
Definition admin_deactivate_user (session_user : option string) (user : string)
    (s : acct_state) : acct_state :=
  match session_user with
  | Some u =>
      if String.eqb u Lifecycle.ADMIN_USERNAME && str_mem user (active_users s) then
        mkAcct (users s) (keys s) (list_remove user (active_users s))
               (stat_active_users s) (stat_total_users s)
      else s
  | None => s
  end.

(** [bot_statistics["active_users"]] equals [len(active_users)]. *)
Definition active_count_ok (s : acct_state) : Prop :=
  stat_active_users s = Z.of_nat (length (active_users s)).

End Accounts.

Module AccountsFacts.
Import Dict Accounts.

Lemma add_active_count (u : string) (s : acct_state) :
  active_count_ok s -> active_count_ok (add_active u s).
Proof.
  unfold active_count_ok, add_active. intros H.
  destruct (str_mem u (active_users s)); simpl; [exact H|reflexivity].
Qed.

Lemma add_active_keys (u : string) (s : acct_state) : keys (add_active u s) = keys s.
Proof. unfold add_active. destruct (str_mem u (active_users s)); reflexivity. Qed.


End AccountsFacts.

Module AcctDemo.
Import Accounts.
Local Open Scope string_scope.

Definition key1 : key_rec :=
  mkKey false "2024-01-01 00:00:00" "2024-01-31 00:00:00" None false None None.

(** [strptime] on the one date the demo stores (2024-01-31 00:00:00 UTC). *)
Definition strptime (e : string) : option Z :=
  if String.eqb e "2024-01-31 00:00:00" then Some 1706659200%Z else None.

(** A time after the key expired. *)
Definition later : Z := 1710000000.

Definition s0 : acct_state := mkAcct [] [("K1", key1)] [] 0 0.

End AcctDemo.

Section AccountProps.
Local Open Scope string_scope.

(** [register] never looks at the key's [expires_at]: a key that exists,
    is unused and has expired is refused by [activate_user] (which changes
    nothing), yet [register] with a new username and matching passwords
    accepts it and marks it used by the new user. *)
Theorem register_accepts_expired_key (strptime : string -> option Z) (now : Z)
    (user key username pw tg : string) (s : Accounts.acct_state) (k : Accounts.key_rec) (e : Z) :
  Dict.dget (Accounts.keys s) key = Some k ->
  Accounts.k_used k = false ->
  strptime (Accounts.k_expires_at k) = Some e ->
  (e <= now)%Z ->
  Dict.dmem (Accounts.users s) username = false ->
  Accounts.activate_user strptime now user key s = (false, s) /\
  exists s', Accounts.register username pw pw key tg s = inr s' /\
             Dict.dget (Accounts.keys s') key = Some (Accounts.mark_used username k).
Proof.
  intros Hk Hu He Hle Hm. split.
  - unfold Accounts.activate_user. rewrite Hk, Hu, He.
    replace (now <? e)%Z with false by (symmetry; apply Z.ltb_ge; exact Hle). reflexivity.
  - unfold Accounts.register. rewrite String.eqb_refl, Hm, Hk, Hu. simpl.
    eexists. split; [reflexivity|]. simpl.
    rewrite AccountsFacts.add_active_keys. simpl.
    rewrite DictFacts.dget_dupdate_same, Hk. reflexivity.
Qed.

Lemma register_accepts_expired_key_witness :
  Accounts.activate_user AcctDemo.strptime AcctDemo.later "alice" "K1" AcctDemo.s0 =
    (false, AcctDemo.s0) /\
  exists s', Accounts.register "bob" "pw" "pw" "K1" "" AcctDemo.s0 = inr s' /\
             Dict.dget (Accounts.keys s') "K1" = Some (Accounts.mark_used "bob" AcctDemo.key1).
Proof.
  apply (register_accepts_expired_key AcctDemo.strptime AcctDemo.later "alice" "K1" "bob" "pw" ""
           AcctDemo.s0 AcctDemo.key1 1706659200%Z);
    [reflexivity|reflexivity|reflexivity|unfold AcctDemo.later; lia|reflexivity].
Defined.

(** After [admin_revoke_key] succeeds on a key, neither [activate_user]
    (which then changes nothing) nor [register] accepts that key. *)
Theorem revoked_key_refused (strptime : string -> option Z) (now : Z) (ts key user : string)
    (username pw tg : string) (s s' : Accounts.acct_state) :
  Accounts.admin_revoke_key ts (Some Lifecycle.ADMIN_USERNAME) key s = (true, s') ->
  Accounts.activate_user strptime now user key s' = (false, s') /\
  exists msg, Accounts.register username pw pw key tg s' = inl msg.
Proof.
  unfold Accounts.admin_revoke_key. rewrite String.eqb_refl.
  destruct (Dict.dget (Accounts.keys s) key) as [k|] eqn:Hk; [|discriminate].
  destruct (Accounts.k_used k); [discriminate|].
  intros H. injection H as <-.
  assert (Hk' : Dict.dget (Dict.dupdate (Accounts.keys s) key (fun k0 =>
                  Accounts.mkKey true (Accounts.k_created_at k0) (Accounts.k_expires_at k0)
                    (Accounts.k_used_by k0) true (Some ts) (Some Lifecycle.ADMIN_USERNAME))) key
                = Some (Accounts.mkKey true (Accounts.k_created_at k) (Accounts.k_expires_at k)
                    (Accounts.k_used_by k) true (Some ts) (Some Lifecycle.ADMIN_USERNAME))).
  { rewrite DictFacts.dget_dupdate_same, Hk. reflexivity. }
  split.
  - unfold Accounts.activate_user. simpl. rewrite Hk'. reflexivity.
  - unfold Accounts.register. simpl. rewrite String.eqb_refl. simpl.
    destruct (Dict.dmem (Accounts.users s) username); [eexists; reflexivity|].
    rewrite Hk'. eexists. reflexivity.
Qed.

Lemma revoked_key_refused_witness :
  Accounts.admin_revoke_key "2024-01-02 10:00:00" (Some Lifecycle.ADMIN_USERNAME) "K1" AcctDemo.s0 =
    (true, snd (Accounts.admin_revoke_key "2024-01-02 10:00:00" (Some Lifecycle.ADMIN_USERNAME)
                  "K1" AcctDemo.s0)) /\
  exists msg, Accounts.register "bob" "pw" "pw" "K1" ""
                (snd (Accounts.admin_revoke_key "2024-01-02 10:00:00"
                        (Some Lifecycle.ADMIN_USERNAME) "K1" AcctDemo.s0)) = inl msg.
Proof.
  split; [reflexivity|].
  exact (proj2 (revoked_key_refused AcctDemo.strptime 0 "2024-01-02 10:00:00" "K1" "alice" "bob"
                  "pw" "" AcctDemo.s0 _ eq_refl)).
Defined.

(** [activate_user] and [register] keep [bot_statistics["active_users"]]
    equal to [len(active_users)]: they append a user who is not yet active
    and then store the new length. *)
Theorem active_count_kept (strptime : string -> option Z) (now : Z) (user key : string)
    (s : Accounts.acct_state) :
  Accounts.active_count_ok s ->
  Accounts.active_count_ok (snd (Accounts.activate_user strptime now user key s)) /\
  (forall username pw cpw k tg s',
     Accounts.register username pw cpw k tg s = inr s' -> Accounts.active_count_ok s').
Proof.
  intros Hc. split.
  - unfold Accounts.activate_user.
    destruct (Dict.dget (Accounts.keys s) key) as [k|]; [|exact Hc].
    destruct (Accounts.k_used k); [exact Hc|].
    destruct (strptime (Accounts.k_expires_at k)) as [e|]; [|exact Hc].
    destruct (now <? e)%Z; [|exact Hc].
    apply AccountsFacts.add_active_count. exact Hc.
  - intros username pw cpw k tg s'. unfold Accounts.register.
    destruct (negb (String.eqb pw cpw)); [discriminate|].
    destruct (Dict.dmem (Accounts.users s) username); [discriminate|].
    destruct (Dict.dget (Accounts.keys s) k) as [kr|]; [|discriminate].
    destruct (Accounts.k_used kr); [discriminate|].
    intros H. injection H as <-.
    pose proof (AccountsFacts.add_active_count username
                  (Accounts.mkAcct
                     (Dict.dset (Accounts.users s) username
                        (Accounts.mkUser (Some pw) (Some []) (Some [])
                           (if String.eqb tg "" then None else Some tg)))
                     (Dict.dupdate (Accounts.keys s) k (Accounts.mark_used username))
                     (Accounts.active_users s) (Accounts.stat_active_users s)
                     (Accounts.stat_total_users s)) Hc) as Ha.
    unfold Accounts.active_count_ok in *. simpl. exact Ha.
Qed.

Lemma active_count_kept_witness :
  Accounts.active_count_ok
    (snd (Accounts.activate_user AcctDemo.strptime 1704100000 "alice" "K1" AcctDemo.s0)).
Proof.
  exact (proj1 (active_count_kept AcctDemo.strptime 1704100000 "alice" "K1" AcctDemo.s0
                  eq_refl)).
Defined.

(** [admin_deactivate_user] removes an active user from [active_users] but
    does not update [bot_statistics["active_users"]]: from a state where
    the counter was right it leaves a counter one too high. *)
Theorem deactivate_leaves_count_stale (u : string) (s : Accounts.acct_state) :
  Accounts.active_count_ok s -> In u (Accounts.active_users s) ->
  let s' := Accounts.admin_deactivate_user (Some Lifecycle.ADMIN_USERNAME) u s in
  Accounts.stat_active_users s' = Accounts.stat_active_users s /\
  S (length (Accounts.active_users s')) = length (Accounts.active_users s) /\
  ~ Accounts.active_count_ok s'.
Proof.
  intros Hc Hin s'. subst s'. unfold Accounts.admin_deactivate_user.
  rewrite String.eqb_refl. apply DictFacts.str_mem_spec in Hin as Hm. rewrite Hm. simpl.
  pose proof (DictFacts.length_list_remove u (Accounts.active_users s) Hin) as Hl.
  split; [reflexivity|split; [exact Hl|]].
  unfold Accounts.active_count_ok in *. simpl. rewrite Hc, <- Hl. lia.
Qed.

Lemma deactivate_leaves_count_stale_witness :
  let s := snd (Accounts.activate_user AcctDemo.strptime 1704100000 "alice" "K1" AcctDemo.s0) in
  Accounts.active_count_ok s /\ In "alice" (Accounts.active_users s) /\
  ~ Accounts.active_count_ok (Accounts.admin_deactivate_user (Some Lifecycle.ADMIN_USERNAME) "alice" s).
Proof.
  intros s. split; [reflexivity|split; [left; reflexivity|]].
  exact (proj2 (proj2 (deactivate_leaves_count_stale "alice" s eq_refl (or_introl eq_refl)))).
Defined.

End AccountProps.

(** ** [create_bulk_jobs_from_template] (src/bot.py) *)

Module TemplateJobs.
Import Dict Accounts.
Local Open Scope string_scope.

Definition tpl_matches (template_id : string) (t : template) : bool :=
  match t_id t with Some i => String.eqb i template_id | None => false end.

(** The loop over [user_data[user_id]['templates']] looking for
    [t.get('id') == template_id]. *)
Definition find_template (ud : list (string * user_rec)) (user template_id : string)
    : option template :=
  match dget ud user with
  | Some u => match u_templates u with
              | Some ts => find (tpl_matches template_id) ts
              | None => None
              end
  | None => None
  end.

(** [api_url] and [api_key] read from the template's API profile, [''] when
    the user, the profiles or the profile is missing. *)
Definition profile_creds (ud : list (string * user_rec)) (user : string) (t : template)
    : string * string :=
  let name := match t_api_profile t with Some n => n | None => "" end in
  match dget ud user with
  | Some u => match u_api_profiles u with
              | Some ps => match dget ps name with
                           | Some p => (match p_api_url p with Some x => x | None => "" end,
                                        match p_api_key p with Some x => x | None => "" end)
                           | None => ("", "")
                           end
              | None => ("", "")
              end
  | None => ("", "")
  end.

Definition opt_default {A : Type} (d : A) (o : option A) : A :=
  match o with Some x => x | None => d end.

(** The job dict built for one link (its ['template_id'] key is read by no
    code and is left out of the record). *)
Definition template_job (user url key : string) (t : template) (now' : Z) (ts : string)
    (lnk id : string) : job :=
  mkJob id user url key (opt_default "" (t_service_id t)) lnk
    (opt_default 100%Z (t_quantity t))
    [opt_default (RInt 10) (t_increase_min t); opt_default (RInt 20) (t_increase_max t)]
    (opt_default 60%Z (t_frequency t)) now' ts false false None None None None None None 0 [].

Definition bump_usage (n : nat) (t : template) : template :=
  mkTemplate (t_id t) (t_api_profile t) (t_service_id t) (t_quantity t) (t_increase_min t)
    (t_increase_max t) (t_frequency t) (Some (opt_default 0%Z (t_usage_count t) + Z.of_nat n)%Z).

(** [for t in templates: if t.get('id') == template_id: t[...] = ...; break]. *)
Fixpoint update_first_tpl (p : template -> bool) (f : template -> template) (ts : list template)
    : list template :=
  match ts with
  | [] => []
  | t :: rest => if p t then f t :: rest else t :: update_first_tpl p f rest
  end.

Definition bump_user (template_id : string) (n : nat) (u : user_rec) : user_rec :=
  mkUser (u_password u) (u_api_profiles u)
    (option_map (update_first_tpl (tpl_matches template_id) (bump_usage n)) (u_templates u))
    (u_telegram_id u).

(** [create_bulk_jobs_from_template(user_id, template_id, links)]: the
    returned count, [user_data] and [background_jobs] afterwards; [uuid k]
    is the [k]-th [uuid.uuid4()], [now'] is [int(time.time())]. *)
Definition create_bulk_jobs_from_template (uuid : nat -> string) (now' : Z) (ts : string)
    (user template_id : string) (links : list string)
    (ud : list (string * user_rec)) (jobs : list job)
    : nat * list (string * user_rec) * list job :=
  match find_template ud user template_id with
  | None => (0%nat, ud, jobs)
  | Some t =>
      let '(url, key) := profile_creds ud user t in
      if String.eqb url "" || String.eqb key "" then (0%nat, ud, jobs)
      else
        let created := Create.assign_ids (fun k => "job_" ++ uuid k) 0
                         (map (template_job user url key t now' ts) links) in
        (length created, dupdate ud user (bump_user template_id (length created)),
         (jobs ++ created)%list)
  end.

End TemplateJobs.

Module TemplateFacts.
Import Dict Accounts TemplateJobs.

Lemma find_update_first_tpl (p : template -> bool) (f : template -> template) (ts : list template) :
  (forall t, p (f t) = p t) ->
  find p (update_first_tpl p f ts) = option_map f (find p ts).
Proof.
  intros Hp. induction ts as [|t rest IH]; simpl; [reflexivity|].
  destruct (p t) eqn:E; simpl.
  - rewrite Hp, E. reflexivity.
  - rewrite E. exact IH.
Qed.

Lemma template_jobs_links (new_id : nat -> string) (k : nat) user url key t now' ts
    (links : list string) :
  map link (Create.assign_ids new_id k (map (template_job user url key t now' ts) links)) = links.
Proof.
  revert k. induction links as [|l rest IH]; intros k; simpl; [reflexivity|].
  rewrite IH. reflexivity.
Qed.

Lemma find_template_bump (ud : list (string * user_rec)) user tid n t :
  find_template ud user tid = Some t ->
  find_template (dupdate ud user (bump_user tid n)) user tid = Some (bump_usage n t).
Proof.
  unfold find_template. rewrite DictFacts.dget_dupdate_same.
  destruct (dget ud user) as [u|]; [|discriminate]. simpl.
  destruct (u_templates u) as [tsl|]; [|discriminate]. simpl.
  intros H. rewrite find_update_first_tpl, H; [reflexivity|].
  intros t'. reflexivity.
Qed.

End TemplateFacts.

Section TemplateProps.
Local Open Scope string_scope.

(** [create_bulk_jobs_from_template] returns 0 and changes neither
    [user_data] nor [background_jobs] when the user has no template with
    that id, or when the template's API profile does not give a non-empty
    URL and key. *)
Theorem create_bulk_jobs_rejects (uuid : nat -> string) (now' : Z) (ts user tid : string)
    (links : list string) (ud : list (string * Accounts.user_rec)) (jobs : list job) :
  (TemplateJobs.find_template ud user tid = None \/
   exists t, TemplateJobs.find_template ud user tid = Some t /\
             (fst (TemplateJobs.profile_creds ud user t) = "" \/
              snd (TemplateJobs.profile_creds ud user t) = "")) ->
  TemplateJobs.create_bulk_jobs_from_template uuid now' ts user tid links ud jobs = (0%nat, ud, jobs).
Proof.
  unfold TemplateJobs.create_bulk_jobs_from_template.
  intros [H|(t & H & Hc)]; rewrite H; [reflexivity|].
  destruct (TemplateJobs.profile_creds ud user t) as [url key]. simpl in Hc.
  destruct Hc as [->| ->]; simpl; [reflexivity|].
  rewrite orb_true_r. reflexivity.
Qed.

Definition tpl_demo : Accounts.template :=
  Accounts.mkTemplate (Some "template_1") (Some "main") (Some "101") (Some 100%Z)
    (Some (RFloat (fl 10))) (Some (RFloat (fl 20))) (Some 30%Z) (Some 0%Z).

(** A user whose profile [main] has a URL but no key. *)
Definition ud_nokey : list (string * Accounts.user_rec) :=
  [("alice", Accounts.mkUser (Some "pw")
               (Some [("main", Accounts.mkProfile (Some "https://panel.example/api/v2") None)])
               (Some [tpl_demo]) None)].

Definition ud_ok : list (string * Accounts.user_rec) :=
  [("alice", Accounts.mkUser (Some "pw")
               (Some [("main", Accounts.mkProfile (Some "https://panel.example/api/v2")
                                 (Some "key1"))])
               (Some [tpl_demo]) None)].

Lemma create_bulk_jobs_rejects_witness :
  TemplateJobs.create_bulk_jobs_from_template demo_ids Demo.t0 "ts" "alice" "template_1"
    ["https://example.com/a"] ud_nokey [] = (0%nat, ud_nokey, []).
Proof.
  apply create_bulk_jobs_rejects. right. exists tpl_demo. split; [reflexivity|right; reflexivity].
Defined.

(** When the template is found and its profile gives a non-empty URL and
    key, [create_bulk_jobs_from_template] returns [len(links)], appends one
    job per link, in the links' order, to [background_jobs] (each with the
    user, the profile's URL and key, the template's service id and
    frequency, due at once, not stopped, no order), and raises the
    template's [usage_count] by [len(links)]. *)
Theorem create_bulk_jobs_creates (uuid : nat -> string) (now' : Z) (ts user tid : string)
    (links : list string) (ud : list (string * Accounts.user_rec)) (jobs : list job)
    (t : Accounts.template) (url key : string) :
  TemplateJobs.find_template ud user tid = Some t ->
  TemplateJobs.profile_creds ud user t = (url, key) ->
  url <> "" -> key <> "" ->
  let '(n, ud', jobs') :=
    TemplateJobs.create_bulk_jobs_from_template uuid now' ts user tid links ud jobs in
  n = length links /\
  (exists created, jobs' = (jobs ++ created)%list /\ map link created = links /\
     Forall (fun j => user_id j = user /\ api_url j = url /\ api_key j = key /\
               service_id j = TemplateJobs.opt_default "" (Accounts.t_service_id t) /\
               frequency j = TemplateJobs.opt_default 60%Z (Accounts.t_frequency t) /\
               next_run j = now' /\ stopped j = false /\ orders j = []) created) /\
  TemplateJobs.find_template ud' user tid =
    Some (TemplateJobs.bump_usage (length links) t).
Proof.
  intros Hf Hp Hu Hk. unfold TemplateJobs.create_bulk_jobs_from_template.
  rewrite Hf, Hp.
  apply String.eqb_neq in Hu, Hk. rewrite Hu, Hk. simpl.
  rewrite CreateMore.assign_ids_length, length_map.
  split; [reflexivity|split].
  - eexists. split; [reflexivity|split].
    + apply TemplateFacts.template_jobs_links.
    + apply Forall_forall. apply CreateFacts.assign_ids_forall.
      intros g id Hg. apply in_map_iff in Hg. destruct Hg as [lnk [<- _]].
      simpl. repeat split.
  - apply TemplateFacts.find_template_bump. exact Hf.
Qed.

Lemma create_bulk_jobs_creates_witness :
  let '(n, ud', jobs') :=
    TemplateJobs.create_bulk_jobs_from_template demo_ids Demo.t0 "ts" "alice" "template_1"
      ["https://example.com/a"; "https://example.com/b"] ud_ok [] in
  n = 2%nat /\
  (exists created, jobs' = ([] ++ created)%list /\
     map link created = ["https://example.com/a"; "https://example.com/b"] /\
     Forall (fun j => user_id j = "alice" /\ api_url j = "https://panel.example/api/v2" /\
               api_key j = "key1" /\
               service_id j = TemplateJobs.opt_default "" (Accounts.t_service_id tpl_demo) /\
               frequency j = TemplateJobs.opt_default 60%Z (Accounts.t_frequency tpl_demo) /\
               next_run j = Demo.t0 /\ stopped j = false /\ orders j = []) created) /\
  TemplateJobs.find_template ud' "alice" "template_1" =
    Some (TemplateJobs.bump_usage 2 tpl_demo).
Proof.
  exact (create_bulk_jobs_creates demo_ids Demo.t0 "ts" "alice" "template_1"
           ["https://example.com/a"; "https://example.com/b"] ud_ok [] tpl_demo
           "https://panel.example/api/v2" "key1" eq_refl eq_refl
           ltac:(discriminate) ltac:(discriminate)).
Defined.

End TemplateProps.

(** ** Telegram sessions and users (src/bot.py) *)

Module PanelFacts.

Lemma str_int_parse (z : Z) :
  option_map Z.of_int (NilZero.int_of_string (Panel.str_int z)) = Some z.
Proof.
  unfold Panel.str_int. set (d := Z.to_int z).
  assert (Hz : z = Z.of_int d) by (symmetry; apply DecimalZ.of_to).
  clearbody d. rewrite Hz.
  destruct d as [u|u]; destruct u; try reflexivity;
    rewrite NilZero.isi; try discriminate; reflexivity.
Qed.

Lemma str_int_inj (a b : Z) : Panel.str_int a = Panel.str_int b -> a = b.
Proof.
  intros H. pose proof (str_int_parse a) as Ha. rewrite H, str_int_parse in Ha. congruence.
Qed.


End PanelFacts.

Module Sessions.
Import Dict Persist.
Local Open Scope string_scope.

(** [telegram_user_sessions]: [str(chat_id)] to the session dict. *)
Definition sessions := list (string * list (string * pyval)).

Definition chat_key (chat_id : Z) : string := Panel.str_int chat_id.

Definition store_user_session (s : sessions) (chat_id : Z) (session_data : list (string * pyval))
    : sessions :=
  dset s (chat_key chat_id) session_data.

Definition get_user_session (s : sessions) (chat_id : Z) : option (list (string * pyval)) :=
  dget s (chat_key chat_id).

Definition clear_user_session (s : sessions) (chat_id : Z) : sessions :=
  if dmem s (chat_key chat_id) then ddel s (chat_key chat_id) else s.

Definition store_newjob_session (s : sessions) (chat_id : Z) (step : string) (data : pyval)
    : sessions :=
  let k := chat_key chat_id in
  let s1 := if dmem s k then s else dset s k [] in
  dupdate s1 k (fun d => dset d "newjob" (PDict [("step", PStr step); ("data", data)])).

Definition get_newjob_session (s : sessions) (chat_id : Z) : option pyval :=
  match dget s (chat_key chat_id) with
  | Some d => if dmem d "newjob" then dget d "newjob" else None
  | None => None
  end.

Definition clear_newjob_session (s : sessions) (chat_id : Z) : sessions :=
  let k := chat_key chat_id in
  match dget s k with
  | Some d => if dmem d "newjob" then dupdate s k (fun d => ddel d "newjob") else s
  | None => s
  end.

End Sessions.

Module TelegramUsers.
Import Dict Accounts.


End TelegramUsers.

Module SessionFacts.
Import Dict.


Lemma dmem_dget {V : Type} (d : list (string * V)) k v : dget d k = Some v -> dmem d k = true.
Proof. unfold dmem. intros ->. reflexivity. Qed.

End SessionFacts.

Section SessionProps.
Local Open Scope string_scope.

(** [store_newjob_session] then [get_newjob_session] on the same chat gives
    back the stored [{'step': step, 'data': data}]; the [/newjob] session
    of every other chat is unchanged. *)
Theorem newjob_session_round_trip (s : Sessions.sessions) (c c' : Z) (step : string)
    (data : Persist.pyval) :
  Sessions.get_newjob_session (Sessions.store_newjob_session s c step data) c' =
    if (c' =? c)%Z then Some (Persist.PDict [("step", Persist.PStr step); ("data", data)])
    else Sessions.get_newjob_session s c'.
Proof.
  unfold Sessions.get_newjob_session, Sessions.store_newjob_session.
  destruct (Z.eqb_spec c' c) as [->|Hne].
  - rewrite DictFacts.dget_dupdate_same.
    destruct (Dict.dmem s (Sessions.chat_key c)) eqn:Em.
    + unfold Dict.dmem in Em. destruct (Dict.dget s (Sessions.chat_key c)); [|discriminate].
      cbn [option_map]. unfold Dict.dmem. rewrite DictFacts.dget_dset_same. reflexivity.
    + rewrite DictFacts.dget_dset_same. cbn [option_map].
      unfold Dict.dmem. rewrite DictFacts.dget_dset_same. reflexivity.
  - assert (Hk : Sessions.chat_key c' <> Sessions.chat_key c).
    { intros E. apply Hne. apply PanelFacts.str_int_inj. exact E. }
    rewrite DictFacts.dget_dupdate_other by exact Hk.
    destruct (Dict.dmem s (Sessions.chat_key c)); [reflexivity|].
    rewrite DictFacts.dget_dset_other by exact Hk. reflexivity.
Qed.

(** [store_user_session] replaces the chat's whole session dict: a session
    stored without a ["newjob"] key, like the
    [{"action": "bulk_links", "template_id": ...}] the [bulk_template_]
    callback stores, discards an unfinished [/newjob] conversation of that
    chat. *)
Theorem user_session_drops_newjob (s : Sessions.sessions) (c : Z) (step : string)
    (data : Persist.pyval) (session_data : list (string * Persist.pyval)) :
  Dict.dmem session_data "newjob" = false ->
  Sessions.get_newjob_session
    (Sessions.store_user_session (Sessions.store_newjob_session s c step data) c session_data) c
  = None.
Proof.
  intros Hm. unfold Sessions.get_newjob_session, Sessions.store_user_session.
  rewrite DictFacts.dget_dset_same, Hm. reflexivity.
Qed.

Lemma user_session_drops_newjob_witness :
  Sessions.get_newjob_session
    (Sessions.store_user_session
       (Sessions.store_newjob_session [] 12345 "api_urls" (Persist.PDict [])) 12345
       [("action", Persist.PStr "bulk_links"); ("template_id", Persist.PStr "template_1")]) 12345
  = None.
Proof. apply user_session_drops_newjob. reflexivity. Defined.

(** [clear_newjob_session] removes the chat's [/newjob] session (the
    session dict has distinct keys, as every Python dict) and leaves every
    other chat's session as it was. *)
Theorem clear_newjob_session_spec (s : Sessions.sessions) (c c' : Z) :
  (forall d, Sessions.get_user_session s c = Some d -> NoDup (map fst d)) ->
  Sessions.get_newjob_session (Sessions.clear_newjob_session s c) c = None /\
  ((c' =? c)%Z = false ->
   Sessions.get_user_session (Sessions.clear_newjob_session s c) c' =
   Sessions.get_user_session s c').
Proof.
  intros Hn. unfold Sessions.get_newjob_session, Sessions.clear_newjob_session,
    Sessions.get_user_session in *.
  destruct (Dict.dget s (Sessions.chat_key c)) as [d|] eqn:Ed.
  - destruct (Dict.dmem d "newjob") eqn:Em.
    + split.
      * rewrite DictFacts.dget_dupdate_same, Ed. simpl. unfold Dict.dmem.
        rewrite DictFacts.dget_ddel_same by exact (Hn d eq_refl). reflexivity.
      * intros Hne. apply Z.eqb_neq in Hne.
        apply DictFacts.dget_dupdate_other. intros E. apply Hne.
        apply PanelFacts.str_int_inj. exact E.
    + split; [rewrite Ed, Em; reflexivity|reflexivity].
  - split; [rewrite Ed; reflexivity|reflexivity].
Qed.

Lemma clear_newjob_session_spec_witness :
  Sessions.get_newjob_session
    (Sessions.clear_newjob_session
       (Sessions.store_newjob_session [] 12345 "api_urls" (Persist.PDict [])) 12345) 12345 = None.
Proof.
  refine (proj1 (clear_newjob_session_spec
                   (Sessions.store_newjob_session [] 12345 "api_urls" (Persist.PDict []))
                   12345 12345 _)).
  intros d Hd. vm_compute in Hd. injection Hd as <-. repeat constructor; simpl; intuition discriminate.
Defined.



End SessionProps.

(** ** [save_data]: the files it touches (src/config.py) *)

Module PersistMore.
Local Open Scope string_scope.

(** The six data file names, in [data_files] order. *)
Definition data_names : list string :=
  ["user_data.json"; "activation_keys.json"; "active_users.json"; "bot_statistics.json";
   "background_jobs.json"; "telegram_verification_codes.json"].

Lemma data_files_names (st : Persist.state) : map fst (Persist.data_files st) = data_names.
Proof. reflexivity. Qed.

End PersistMore.

(** [save_data] changes no file other than the six temporary files under
    [data/temp/] and the six data files under [data/]. *)
Theorem save_data_touches_only_data_files (st : Persist.state) (files : Persist.fs) (p : string) :
  ~ In p (map Persist.tmp_path PersistMore.data_names ++
          map Persist.final_path PersistMore.data_names) ->
  Persist.save_data st files p = files p.
Proof.
  intros Hp.
  assert (E : forall q, In q (map Persist.tmp_path PersistMore.data_names ++
                              map Persist.final_path PersistMore.data_names) ->
              String.eqb p q = false).
  { intros q Hq. apply String.eqb_neq. intros ->. contradiction. }
  cbn in E.
  unfold Persist.save_data, Persist.fs_rename, Persist.fs_remove, Persist.fs_write. cbn.
  rewrite !E by auto 20. reflexivity.
Qed.

Lemma save_data_touches_only_data_files_witness :
  Persist.save_data PersistDemo.demo_state PersistDemo.no_files "data/config.json"%string = None.
Proof.
  apply (save_data_touches_only_data_files PersistDemo.demo_state PersistDemo.no_files).
  cbn. intuition discriminate.
Defined.

(** After [save_data] no temporary file is left under [data/temp/]: each
    one has been renamed onto its data file. *)
Theorem save_data_leaves_no_temp_file (st : Persist.state) (files : Persist.fs) (n : string) :
  In n PersistMore.data_names -> Persist.save_data st files (Persist.tmp_path n) = None.
Proof.
  intros Hn. cbn in Hn.
  destruct Hn as [<-|[<-|[<-|[<-|[<-|[<-|[]]]]]]];
    unfold Persist.save_data, Persist.fs_rename, Persist.fs_remove, Persist.fs_write; cbn;
    reflexivity.
Qed.

Lemma save_data_leaves_no_temp_file_witness :
  Persist.save_data PersistDemo.demo_state PersistDemo.no_files
    (Persist.tmp_path "background_jobs.json"%string) = None.
Proof.
  apply save_data_leaves_no_temp_file. cbn. intuition.
Defined.

(** ** Telegram verification codes: [generate_verification_code],
    [verify_telegram_code] (src/bot.py) and [connect_telegram] (src/app.py) *)

Module Verify.
Import Dict Accounts.
Local Open Scope string_scope.

Record vcode := mkVcode {
  vc_code : string;
  vc_created_at : string;
  vc_expires_at : string
}.

Section Clock.
(** Naive local [datetime]s as microsecond counts; [fmt s] is
    [strftime('%Y-%m-%d %H:%M:%S')] of the datetime at whole second [s]
    (strftime drops the microseconds), [parse] is [datetime.strptime] with
    that format, in whole seconds ([None] when it raises). *)
Variable fmt : Z -> string.
Variable parse : string -> option Z.

Definition usec : Z := 1000000.

(** [generate_verification_code(telegram_id)]: [code] is the random 6
    characters, [now] is [datetime.now()]. *)
Definition generate_verification_code (code : string) (now : Z) (telegram_id : string)
    (codes : list (string * vcode)) : list (string * vcode) :=
  dset codes telegram_id
    (mkVcode code (fmt (now / usec)) (fmt ((now + 3600 * usec) / usec))).

(** [verify_telegram_code(telegram_id, code)]; [None] when [strptime]
    raises (the function does not catch it). *)
Definition verify_telegram_code (now : Z) (telegram_id code : string)
    (codes : list (string * vcode)) : option bool :=
  match dget codes telegram_id with
  | Some v =>
      if String.eqb (vc_code v) code then
        match parse (vc_expires_at v) with
        | Some e => Some (now <=? e * usec)%Z
        | None => None
        end
      else Some false
  | None => Some false
  end.



End Clock.

End Verify.

Section VerifyProps.
Local Open Scope string_scope.

Variable fmt : Z -> string.
Variable parse : string -> option Z.
Hypothesis parse_fmt : forall s, parse (fmt s) = Some s.

Lemma verify_generate_same (codes : list (string * Verify.vcode)) (tid code code' : string)
    (t0 t : Z) :
  Verify.verify_telegram_code parse t tid code'
    (Verify.generate_verification_code fmt code t0 tid codes) =
  Some (String.eqb code code' && (t <=? (t0 + 3600 * Verify.usec) / Verify.usec * Verify.usec))%Z.
Proof.
  unfold Verify.verify_telegram_code, Verify.generate_verification_code.
  rewrite DictFacts.dget_dset_same. simpl.
  destruct (String.eqb code code'); [|reflexivity].
  rewrite parse_fmt. reflexivity.
Qed.

(** A code generated for a Telegram ID at time [t0] verifies at time [t]
    exactly when it is the same code and [t] is not after [t0] plus one
    hour, cut to the whole second (strftime drops the microseconds). *)
Theorem verify_after_generate (codes : list (string * Verify.vcode)) (tid code code' : string)
    (t0 t : Z) :
  Verify.verify_telegram_code parse t tid code'
    (Verify.generate_verification_code fmt code t0 tid codes) =
  Some (String.eqb code code' && (t <=? (t0 + 3600 * Verify.usec) / Verify.usec * Verify.usec))%Z.
Proof. apply verify_generate_same. Qed.


End VerifyProps.

(** Stand-ins for the clock in the examples: seconds written in decimal. *)
Definition demo_fmt (s : Z) : string := Panel.str_int s.
Definition demo_parse (x : string) : option Z := option_map Z.of_int (NilZero.int_of_string x).

Lemma verify_after_generate_witness :
  Verify.verify_telegram_code demo_parse 1700000100000000 "12345" "AB12CD"
    (Verify.generate_verification_code demo_fmt "AB12CD" 1700000000000000 "12345" []) = Some true.
Proof.
  rewrite (verify_after_generate demo_fmt demo_parse PanelFacts.str_int_parse). reflexivity.
Defined.

